(** * python-crowd: the [CrowdServer] client of [crowd.py]

    A shallow embedding of the client class of [crowd.py] and the
    properties of its status-code-to-outcome mapping.

    The client talks to the Crowd server through the [requests] library.
    The embedding keeps the client's own code and treats the library as an
    environment (class [Env]): the transport answers every request with a
    response, [json.dumps] and [xmltodict.parse] are opaque codecs.  Every
    request that leaves the client is recorded in a trace, so that "no
    network call" is a statement about the trace.

    The language is Python 3: a dict iterates in insertion order, and an
    exception has no attribute [message].  Strings are modelled as
    [string] (sequences of 8-bit characters); [str.lower] acts on the
    ASCII letters. *)

From Stdlib Require Import String Ascii List ZArith Bool Lia.
From Stdlib Require DecimalString DecimalZ.
Import ListNotations.
Local Open Scope string_scope.
Local Open Scope Z_scope.

(** ** Python string methods used by the client *)

Module PyStr.

(** [c.lower()] on one character: the ASCII capitals move by 32. *)
Definition lower_ascii (c : ascii) : ascii :=
  let n := nat_of_ascii c in
  if (Nat.leb 65 n && Nat.leb n 90)%bool then ascii_of_nat (n + 32) else c.

(** [s.lower()] *)
Fixpoint lower (s : string) : string :=
  match s with
  | EmptyString => EmptyString
  | String c s' => String (lower_ascii c) (lower s')
  end.

(** [s.startswith(p)] *)
Fixpoint startswith (s p : string) : bool :=
  match p, s with
  | EmptyString, _ => true
  | String _ _, EmptyString => false
  | String a p', String b s' => (Ascii.eqb a b && startswith s' p')%bool
  end.

(** [c in chars] for a character and a string used as a character set *)
Fixpoint mem (c : ascii) (chars : string) : bool :=
  match chars with
  | EmptyString => false
  | String d chars' => (Ascii.eqb c d || mem c chars')%bool
  end.

(** [s.rstrip(chars)]: drop the longest suffix made of characters of
    [chars]. *)
Fixpoint rstrip (s chars : string) : string :=
  match s with
  | EmptyString => EmptyString
  | String c s' =>
      match rstrip s' chars with
      | EmptyString => if mem c chars then EmptyString else String c EmptyString
      | r => String c r
      end
  end.

(** [s.replace(a, b)] for one-character [a] and [b] *)
Fixpoint replace (a b : ascii) (s : string) : string :=
  match s with
  | EmptyString => EmptyString
  | String c s' => String (if Ascii.eqb c a then b else c) (replace a b s')
  end.

(** [s.endswith(c)] for a single character [c] *)
Fixpoint ends_with_char (s : string) (c : ascii) : bool :=
  match s with
  | EmptyString => false
  | String d EmptyString => Ascii.eqb d c
  | String _ s' => ends_with_char s' c
  end.

(** The string made of [k] copies of [c] ([c * k]). *)
Fixpoint repeat_char (c : ascii) (k : nat) : string :=
  match k with
  | O => EmptyString
  | S k' => String c (repeat_char c k')
  end.

End PyStr.

(** ** Values: decoded JSON, which is also what keyword arguments carry *)

#[local] Set Warnings "-register-all".

Inductive json : Type :=
| JNull
| JBool (b : bool)
| JNum (n : Z)
| JStr (s : string)
| JArr (l : list json)
| JObj (o : list (string * json)).

(** A Python [dict] with string keys, in iteration order. *)
Definition dict := list (string * json).

(** ** Exceptions and outcomes *)

Inductive exn : Type :=
| CrowdAuthFailure (detail : option json)
| CrowdAuthDenied (detail : string)
| CrowdUserExists
| CrowdNoSuchUser
| CrowdGroupExists
| CrowdNoSuchGroup
| CrowdError (message : string)
| ValueError (message : string)
| KeyError (key : string)
| TypeError
| AttributeError
| ExpatError.

(** [CrowdError.__init__]: an absent or empty message becomes the default
    text. *)
Definition mkCrowdError (message : option string) : exn :=
  match message with
  | None | Some EmptyString => CrowdError "unexpected response from Crowd server"
  | Some m => CrowdError m
  end.

Inductive Outcome (A : Type) : Type :=
| Return (a : A)
| Raise (e : exn).
Arguments Return {A} a.
Arguments Raise {A} e.

Module Dict.

(** [k in d] *)
Fixpoint contains (d : dict) (k : string) : bool :=
  match d with
  | [] => false
  | (k', _) :: d' => (String.eqb k k' || contains d' k)%bool
  end.

(** [d.get(k)] *)
Fixpoint get (d : dict) (k : string) : option json :=
  match d with
  | [] => None
  | (k', v) :: d' => if String.eqb k k' then Some v else get d' k
  end.

(** [d[k]], raising [KeyError(k)] when the key is absent *)
Definition getitem (d : dict) (k : string) : Outcome json :=
  match get d k with
  | Some v => Return v
  | None => Raise (KeyError k)
  end.

(** [d[k] = v]: an existing key keeps its place, a new key goes last. *)
Fixpoint setitem (d : dict) (k : string) (v : json) : dict :=
  match d with
  | [] => [(k, v)]
  | (k', v') :: d' =>
      if String.eqb k k' then (k', v) :: d' else (k', v') :: setitem d' k v
  end.

(** [del d[k]] for a key that is present *)
Fixpoint delitem (d : dict) (k : string) : dict :=
  match d with
  | [] => []
  | (k', v') :: d' =>
      if String.eqb k k' then delitem d' k else (k', v') :: delitem d' k
  end.

End Dict.

(** ** The [requests] library as seen by the client *)

Inductive verb : Type := GET | POST | DELETE.

(** [ssl_verify]: a boolean, or the path of a CA bundle. *)
Inductive Verify : Type :=
| VerifyFlag (b : bool)
| VerifyBundle (path : string).

(** A case-insensitive header mapping ([requests]' [CaseInsensitiveDict]). *)
Module Headers.

Definition t := list (string * string).

Definition same_name (a b : string) : bool :=
  String.eqb (PyStr.lower a) (PyStr.lower b).

Fixpoint get (h : t) (name : string) : option string :=
  match h with
  | [] => None
  | (n, v) :: h' => if same_name name n then Some v else get h' name
  end.

Fixpoint set (h : t) (name value : string) : t :=
  match h with
  | [] => [(name, value)]
  | (n, v) :: h' =>
      if same_name name n then (name, value) :: h' else (n, v) :: set h' name value
  end.

(** [h.update(new)] *)
Definition update (h : t) (new : list (string * string)) : t :=
  fold_left (fun acc kv => set acc (fst kv) (snd kv)) new h.

End Headers.

(** What the client hands to the library for a request: the arguments of
    the call and the headers and credentials of the session.  How the
    library verifies the server's certificate is settled inside it, from
    the session and from its environment, and is not part of the
    request. *)
Record Request : Type := mkRequest {
  req_method : verb;
  req_url : string;
  req_params : dict;
  req_data : option string;
  req_headers : Headers.t;
  req_auth : option (string * string)
}.

(** A response: its status code, its raw body, and the value the body
    decodes to as JSON (absent when it does not decode). *)
Record Response : Type := mkResponse {
  status_code : Z;
  content : string;
  body_json : option json
}.

(** [response.ok]: true unless the status is a client or server error
    (what [raise_for_status] raises for, 400 to 599). *)
Definition ok (r : Response) : bool :=
  negb ((400 <=? status_code r) && (status_code r <? 600)).

(** [response.json()] *)
Definition response_json (r : Response) : Outcome json :=
  match body_json r with
  | Some j => Return j
  | None => Raise (ValueError "No JSON object could be decoded")
  end.

(** The environment of the client: the server behind the transport, the
    codecs, and the headers a fresh [requests.Session] starts with. *)
Class Env : Type := mkEnv {
  transport : Request -> Response;
  json_dumps : json -> string;
  xmltodict_parse : string -> option json;
  default_headers : Headers.t
}.

(** ** The client object and the world it runs in *)

Record Session : Type := mkSession {
  verify : Verify;
  auth : option (string * string);
  headers : Headers.t
}.

(** The request a session sends for a call: the call's own arguments
    together with the session's headers and credentials. *)
Definition prepare (s : Session) (m : verb) (url : string) (params : dict)
    (data : option string) : Request :=
  {| req_method := m; req_url := url; req_params := params;
     req_data := data; req_headers := headers s;
     req_auth := auth s |}.

Record CrowdServer : Type := mkCrowdServer {
  crowd_url : string;
  app_name : string;
  app_pass : string;
  rest_url : string;
  session : Session
}.

(** The client object [self] together with the trace of the requests sent
    so far (oldest first). *)
Record World : Type := mkWorld {
  self : CrowdServer;
  sent : list Request
}.

(** Methods: state passing over [World], with exceptions.  A raised
    exception keeps the state reached so far. *)
Definition M (A : Type) : Type := World -> Outcome A * World.

Definition ret {A} (a : A) : M A := fun w => (Return a, w).
Definition raise {A} (e : exn) : M A := fun w => (Raise e, w).
Definition bind {A B} (m : M A) (k : A -> M B) : M B :=
  fun w => match m w with
           | (Return a, w') => k a w'
           | (Raise e, w') => (Raise e, w')
           end.
Definition lift {A} (o : Outcome A) : M A := fun w => (o, w).
Definition get_self : M CrowdServer := fun w => (Return (self w), w).

Declare Scope crowd_scope.
Delimit Scope crowd_scope with crowd.
Notation "x <- m ;; k" := (bind m (fun x => k))
  (at level 61, m at next level, right associativity) : crowd_scope.
Notation "m ;;; k" := (bind m (fun _ => k))
  (at level 61, right associativity) : crowd_scope.
Local Open Scope crowd_scope.

(** The outcome monad of code that touches neither [self] nor the network. *)
Definition obind {A B} (o : Outcome A) (k : A -> Outcome B) : Outcome B :=
  match o with
  | Return a => k a
  | Raise e => Raise e
  end.

(** ** The client *)

Section Client.

Context `{E : Env}.

(** [CrowdServer.__init__], run in a world whose trace so far is
    [trace]. *)
Definition CrowdServer_init (crowd_url app_name app_pass : string)
    (ssl_verify : Verify) (trace : list Request) : World :=
  let rest_url := PyStr.rstrip crowd_url "/" ++ "/rest/usermanagement/1" in
  let session := {| verify := VerifyFlag true;
                    auth := None;
                    headers := default_headers |} in
  let session := {| verify := ssl_verify;
                    auth := auth session;
                    headers := headers session |} in
  let session := {| verify := verify session;
                    auth := Some (app_name, app_pass);
                    headers := headers session |} in
  let session := {| verify := verify session;
                    auth := auth session;
                    headers := Headers.update (headers session)
                                 [("Content-type", "application/json");
                                  ("Accept", "application/json")] |} in
  {| self := {| crowd_url := crowd_url;
                app_name := app_name;
                app_pass := app_pass;
                rest_url := rest_url;
                session := session |};
     sent := trace |}.

(** [self.session.request(...)]: the request goes out with the
    session's headers and credentials, and is recorded. *)
Definition session_request (m : verb) (url : string) (params : dict)
    (data : option string) : M Response :=
  fun w =>
    let req := prepare (session (self w)) m url params data in
    (Return (transport req), {| self := self w; sent := sent w ++ [req] |}).

Definition _get (url : string) (params : dict) : M Response :=
  session_request GET url params None.

Definition _post (url : string) (data : string) (params : dict) : M Response :=
  session_request POST url params (Some data).

Definition _delete (url : string) (params : dict) : M Response :=
  session_request DELETE url params None.

(** [self.session.headers.update(new)] *)
Definition session_headers_update (new : list (string * string)) : M unit :=
  fun w =>
    let c := self w in
    let s := session c in
    (Return tt,
     {| self := {| crowd_url := crowd_url c; app_name := app_name c;
                   app_pass := app_pass c; rest_url := rest_url c;
                   session := {| verify := verify s; auth := auth s;
                                 headers := Headers.update (headers s) new |} |};
        sent := sent w |}).

Definition auth_ping : M bool :=
  this <- get_self ;;
  let url := rest_url this ++ "/non-existent/location" in
  response <- _get url [] ;;
  if status_code response =? 401 then ret false
  else if status_code response =? 404 then ret true
  else raise (mkCrowdError (Some "unidentified problem")).

Definition validation_factors (remote : string) : json :=
  JObj [("validationFactors",
         JArr [JObj [("name", JStr "remote_address"); ("value", JStr remote)]])].

Definition validate_session (token remote : string) : M json :=
  this <- get_self ;;
  let params := validation_factors remote in
  let url := rest_url this ++ "/session/" ++ token in
  response <- _post url (json_dumps params) [("expand", JStr "user")] ;;
  if negb (ok response) then raise (CrowdAuthFailure None)
  else lift (response_json response).

(** [e.message] for a caught exception [e]: no exception of this program
    has the attribute, so reading it raises [AttributeError]. *)
Definition exception_message (e : exn) : Outcome string :=
  Raise AttributeError.

(** The [try] block of [add_user]: the payload with its defaults and the
    two mandatory values.  The handler of [KeyError] builds a [ValueError]
    from [e.message], and reading [e.message] comes first. *)
Definition add_user_payload (username : string) (kwargs : dict) : Outcome dict :=
  match
    obind (Dict.getitem kwargs "email") (fun email =>
    obind (Dict.getitem kwargs "password") (fun password =>
    Return [("name", JStr username);
            ("first-name", JStr username);
            ("last-name", JStr username);
            ("display-name", JStr username);
            ("email", email);
            ("password", JObj [("value", password)]);
            ("active", JBool true)]))
  with
  | Raise (KeyError k) =>
      obind (exception_message (KeyError k)) (fun message =>
      Raise (ValueError ("missing " ++ message)))
  | r => r
  end.

(** The loop [for k, v in kwargs.items()] of [add_user]. *)
Fixpoint add_user_fill (items : list (string * json)) (data : dict) : Outcome dict :=
  match items with
  | [] => Return data
  | (k, v) :: items' =>
      let new_k := PyStr.replace "_" "-" k in
      if negb (Dict.contains data new_k)
      then Raise (ValueError ("invalid argument " ++ k))
      else add_user_fill items' (Dict.setitem data new_k v)
  end.

Definition add_user (username : string) (kwargs : dict) : M bool :=
  this <- get_self ;;
  data <- lift (add_user_payload username kwargs) ;;
  let kwargs := Dict.delitem kwargs "password" in
  data <- lift (add_user_fill kwargs data) ;;
  response <- _post (rest_url this ++ "/user") (json_dumps (JObj data)) [] ;;
  if status_code response =? 201 then ret true
  else if status_code response =? 400 then raise CrowdUserExists
  else if status_code response =? 403
  then raise (CrowdAuthDenied "application is not allowed to create a new user")
  else raise (mkCrowdError None).

Definition get_user (username : string) : M (option json) :=
  this <- get_self ;;
  response <- _get (rest_url this ++ "/user")
                   [("username", JStr username); ("expand", JStr "attributes")] ;;
  if status_code response =? 200
  then j <- lift (response_json response) ;; ret (Some j)
  else if status_code response =? 404 then ret None
  else raise (mkCrowdError None).

Definition get_group_membership : M (option json) :=
  this <- get_self ;;
  session_headers_update [("Content-type", "application/xml");
                          ("Accept", "application/xml")] ;;;
  response <- _get (rest_url this ++ "/group/membership") [] ;;
  if status_code response =? 200
  then match xmltodict_parse (content response) with
       | Some tree => ret (Some tree)
       | None => raise ExpatError
       end
  else if status_code response =? 404 then ret None
  else raise (mkCrowdError None).

(** [j['message']] for a decoded body [j] *)
Definition subscript_message (j : json) : Outcome json :=
  match j with
  | JObj o => Dict.getitem o "message"
  | _ => Raise TypeError
  end.

(** [v.lower()] for a decoded value [v] *)
Definition value_lower (v : json) : Outcome string :=
  match v with
  | JStr s => Return (PyStr.lower s)
  | _ => Raise AttributeError
  end.

Definition remove_user_from_group (username groupname : string) : M bool :=
  this <- get_self ;;
  response <- _delete (rest_url this ++ "/group/user/direct")
                      [("groupname", JStr groupname); ("username", JStr username)] ;;
  if status_code response =? 204 then ret true
  else if status_code response =? 404 then
    j <- lift (response_json response) ;;
    m <- lift (obind (subscript_message j) value_lower) ;;
    if PyStr.startswith m "group" then raise CrowdNoSuchGroup
    else
      m <- lift (obind (subscript_message j) value_lower) ;;
      if PyStr.startswith m "user" then raise CrowdNoSuchUser
      else raise (mkCrowdError (Some "unknown server response"))
  else raise (mkCrowdError None).

Definition user_exists (username : string) : M (option bool) :=
  this <- get_self ;;
  response <- _get (rest_url this ++ "/user") [("username", JStr username)] ;;
  if negb (ok response) then ret None else ret (Some true).

Definition group_exists (group : string) : M (option bool) :=
  this <- get_self ;;
  response <- _get (rest_url this ++ "/group") [("groupname", JStr group)] ;;
  if negb (ok response) then ret None else ret (Some true).

End Client.

(** ** The other methods of the client *)

(** ["%d" % n] for an integer [n] *)
Definition format_d (n : Z) : string :=
  DecimalString.NilEmpty.string_of_int (Z.to_int n).

(** [j[key]] for a decoded value [j] and a text key: only a mapping can
    be subscripted by a text. *)
Definition subscript (j : json) (key : string) : Outcome json :=
  match j with
  | JObj o => Dict.getitem o key
  | _ => Raise TypeError
  end.

(** The one-character texts of a text, as iterating over it yields them. *)
Fixpoint characters (s : string) : list json :=
  match s with
  | EmptyString => []
  | String c s' => JStr (String c EmptyString) :: characters s'
  end.

(** [for g in j]: a list yields its elements, a mapping its keys, a text
    its characters; nothing else can be iterated. *)
Definition iterate (j : json) : Outcome (list json) :=
  match j with
  | JArr l => Return l
  | JObj o => Return (map (fun kv => JStr (fst kv)) o)
  | JStr s => Return (characters s)
  | _ => Raise TypeError
  end.

(** The comprehension [[g['name'] for g in gs]]: the first failing
    subscript ends it. *)
Fixpoint collect_names (gs : list json) : Outcome (list json) :=
  match gs with
  | [] => Return []
  | g :: gs' =>
      obind (subscript g "name") (fun n =>
      obind (collect_names gs') (fun ns => Return (n :: ns)))
  end.

(** The loop [for k, v in kwargs.items()] of [add_group]. *)
Fixpoint add_group_fill (items : list (string * json)) (data : dict) : Outcome dict :=
  match items with
  | [] => Return data
  | (k, v) :: items' =>
      if negb (Dict.contains data k)
      then Raise (ValueError ("invalid argument " ++ k))
      else add_group_fill items' (Dict.setitem data k v)
  end.

Section OtherMethods.

Context `{E : Env}.

Definition auth_user (username password : string) : M json :=
  this <- get_self ;;
  response <- _post (rest_url this ++ "/authentication")
                    (json_dumps (JObj [("value", JStr password)]))
                    [("username", JStr username)] ;;
  if status_code response =? 200 then lift (response_json response)
  else if status_code response =? 400 then
    j <- lift (response_json response) ;;
    message <- lift (subscript j "message") ;;
    raise (CrowdAuthFailure (Some message))
  else raise (mkCrowdError None).

Definition get_session (username password remote : string) : M json :=
  this <- get_self ;;
  let params := JObj [("username", JStr username);
                      ("password", JStr password);
                      ("validation-factors", validation_factors remote)] in
  response <- _post (rest_url this ++ "/session") (json_dumps params)
                    [("expand", JStr "user")] ;;
  if status_code response =? 201 then lift (response_json response)
  else if status_code response =? 400 then
    j <- lift (response_json response) ;;
    message <- lift (subscript j "message") ;;
    raise (CrowdAuthFailure (Some message))
  else raise (mkCrowdError None).

Definition terminate_session (token : string) : M bool :=
  this <- get_self ;;
  let url := rest_url this ++ "/session/" ++ token in
  response <- _delete url [] ;;
  if status_code response =? 204 then ret true
  else raise (mkCrowdError None).

Definition remove_user (username : string) : M bool :=
  this <- get_self ;;
  response <- _delete (rest_url this ++ "/user") [("username", JStr username)] ;;
  if status_code response =? 204 then ret true
  else if status_code response =? 403
  then raise (CrowdAuthDenied "application is not allowed to delete user")
  else if status_code response =? 404 then raise CrowdNoSuchUser
  else raise (mkCrowdError None).

Definition get_user_direct_group (username groupname : string) : M (option json) :=
  this <- get_self ;;
  response <- _get (rest_url this ++ "/group/user/direct")
                   [("groupname", JStr groupname); ("username", JStr username)] ;;
  if status_code response =? 200
  then j <- lift (response_json response) ;; ret (Some j)
  else if status_code response =? 404 then ret None
  else raise (mkCrowdError None).

Definition get_child_group_direct (groupname : string) : M (option json) :=
  this <- get_self ;;
  response <- _get (rest_url this ++ "/group/child-group/direct")
                   [("groupname", JStr groupname)] ;;
  if status_code response =? 200
  then j <- lift (response_json response) ;; ret (Some j)
  else if status_code response =? 404 then ret None
  else raise (mkCrowdError None).

Definition get_group_users_direct (groupname : string) : M (option json) :=
  this <- get_self ;;
  response <- _get (rest_url this ++ "/group/user/direct")
                   [("groupname", JStr groupname)] ;;
  if status_code response =? 200
  then j <- lift (response_json response) ;; ret (Some j)
  else if status_code response =? 404 then ret None
  else raise (mkCrowdError None).

Definition add_group (groupname : string) (kwargs : dict) : M bool :=
  this <- get_self ;;
  let data := [("name", JStr groupname);
               ("description", JStr groupname);
               ("active", JBool true);
               ("type", JStr "GROUP")] in
  data <- lift (add_group_fill kwargs data) ;;
  response <- _post (rest_url this ++ "/group") (json_dumps (JObj data)) [] ;;
  if status_code response =? 201 then ret true
  else if status_code response =? 400 then raise CrowdGroupExists
  else if status_code response =? 403 then raise (CrowdAuthFailure None)
  else raise (mkCrowdError
                (Some ("status code " ++ format_d (status_code response)))).

(** [[g['name'] for g in response.json()[key]]] *)
Definition names_under (key : string) (response : Response) : Outcome (list json) :=
  obind (response_json response) (fun j =>
  obind (subscript j key) (fun listing =>
  obind (iterate listing) collect_names)).

Definition get_groups (username : string) : M (option (list json)) :=
  this <- get_self ;;
  response <- _get (rest_url this ++ "/user/group/direct")
                   [("username", JStr username)] ;;
  if status_code response =? 200
  then names <- lift (names_under "groups" response) ;; ret (Some names)
  else if status_code response =? 404 then ret None
  else raise (mkCrowdError None).

Definition get_nested_groups (username : string) : M (option (list json)) :=
  this <- get_self ;;
  response <- _get (rest_url this ++ "/user/group/nested")
                   [("username", JStr username)] ;;
  if status_code response =? 200
  then names <- lift (names_under "groups" response) ;; ret (Some names)
  else if status_code response =? 404 then ret None
  else raise (mkCrowdError None).

Definition get_nested_group_users (groupname : string) : M (option (list json)) :=
  this <- get_self ;;
  response <- _get (rest_url this ++ "/group/user/nested")
                   [("groupname", JStr groupname);
                    ("start-index", JNum 0);
                    ("max-results", JNum 99999)] ;;
  if negb (ok response) then ret None
  else names <- lift (names_under "users" response) ;; ret (Some names).

Definition add_user_to_group (username groupname : string) : M bool :=
  this <- get_self ;;
  response <- _post (rest_url this ++ "/group/user/direct")
                    (json_dumps (JObj [("name", JStr username)]))
                    [("groupname", JStr groupname)] ;;
  if status_code response =? 201 then ret true
  else if status_code response =? 400 then raise CrowdNoSuchUser
  else if status_code response =? 404 then raise CrowdNoSuchGroup
  else if status_code response =? 409 then raise CrowdUserExists
  else raise (mkCrowdError
                (Some ("received server response "
                       ++ format_d (status_code response)))).

Definition add_child_group_to_group (parentgroupname childgroupname : string)
    : M bool :=
  this <- get_self ;;
  response <- _post (rest_url this ++ "/group/child-group/direct")
                    (json_dumps (JObj [("name", JStr childgroupname)]))
                    [("groupname", JStr parentgroupname)] ;;
  if status_code response =? 201 then ret true
  else if status_code response =? 400 then raise CrowdNoSuchUser
  else if status_code response =? 404 then raise CrowdNoSuchGroup
  else raise (mkCrowdError
                (Some ("received server response "
                       ++ format_d (status_code response)))).

End OtherMethods.

(** * Vocabulary of the properties *)

(** The result of a method call and the world it leaves. *)
Definition result {A} (m : M A) (w : World) : Outcome A := fst (m w).
Definition after {A} (m : M A) (w : World) : World := snd (m w).

(** [f] applied to a returned value; a raised exception passes through. *)
Definition omap {A B} (f : A -> B) (o : Outcome A) : Outcome B :=
  obind o (fun a => Return (f a)).

(** The request each method sends from the world [w]. *)
Definition auth_ping_request (w : World) : Request :=
  prepare (session (self w)) GET
    (rest_url (self w) ++ "/non-existent/location") [] None.

Definition validate_session_request `{E : Env} (token remote : string)
    (w : World) : Request :=
  prepare (session (self w)) POST
    (rest_url (self w) ++ "/session/" ++ token)
    [("expand", JStr "user")]
    (Some (json_dumps (validation_factors remote))).

Definition get_user_request (username : string) (w : World) : Request :=
  prepare (session (self w)) GET (rest_url (self w) ++ "/user")
    [("username", JStr username); ("expand", JStr "attributes")] None.

Definition remove_user_from_group_request (username groupname : string)
    (w : World) : Request :=
  prepare (session (self w)) DELETE (rest_url (self w) ++ "/group/user/direct")
    [("groupname", JStr groupname); ("username", JStr username)] None.

Definition user_exists_request (username : string) (w : World) : Request :=
  prepare (session (self w)) GET (rest_url (self w) ++ "/user")
    [("username", JStr username)] None.

Definition group_exists_request (group : string) (w : World) : Request :=
  prepare (session (self w)) GET (rest_url (self w) ++ "/group")
    [("groupname", JStr group)] None.

Definition add_user_request `{E : Env} (data : dict) (w : World) : Request :=
  prepare (session (self w)) POST (rest_url (self w) ++ "/user") []
    (Some (json_dumps (JObj data))).

(** The status is a client or server error, the range on which
    [response.ok] is false. *)
Definition error_status (code : Z) : Prop := 400 <= code < 600.

(** The keys of the payload of [add_user]. *)
Definition payload_keys : list string :=
  ["name"; "first-name"; "last-name"; "display-name"; "email"; "password";
   "active"].

(** The payload the [try] block of [add_user] builds when both mandatory
    values are there. *)
Definition payload_template (username : string) (email password : json) : dict :=
  [("name", JStr username);
   ("first-name", JStr username);
   ("last-name", JStr username);
   ("display-name", JStr username);
   ("email", email);
   ("password", JObj [("value", password)]);
   ("active", JBool true)].

(** The keyword [k] names a field of the payload once its underscores are
    dashes. *)
Definition names_payload_field (k : string) : bool :=
  existsb (String.eqb (PyStr.replace "_" "-" k)) payload_keys.

(** The keywords the documentation of [add_user] lists. *)
Definition documented_keywords : list string :=
  ["email"; "password"; "first_name"; "last_name"; "display_name"; "active"].

(** The caller supplied the payload field [f]: some keyword names it. *)
Definition supplies (kwargs : dict) (f : string) : Prop :=
  exists k v, In (k, v) kwargs /\ PyStr.replace "_" "-" k = f.

(** The value the loop of [add_user] leaves for the payload field [f]:
    that of the last keyword naming it, if any. *)
Fixpoint last_given (f : string) (items : list (string * json)) : option json :=
  match items with
  | [] => None
  | (k, v) :: items' =>
      match last_given f items' with
      | Some v' => Some v'
      | None => if String.eqb (PyStr.replace "_" "-" k) f then Some v else None
      end
  end.

(** The payload [data] holds for the field [f] a value the caller gave
    for it, or the default [d] when the caller gave none. *)
Definition field_or_default (kwargs data : dict) (f : string) (d : json) : Prop :=
  (~ supplies kwargs f -> Dict.get data f = Some d) /\
  (supplies kwargs f ->
   exists k v, In (k, v) kwargs /\ PyStr.replace "_" "-" k = f /\
               Dict.get data f = Some v).

(** ** Concrete environments for examples *)

Module Examples.

(** A server that answers every request with the same response. *)
Definition fixed (r : Response) : Env :=
  {| transport := fun _ => r;
     json_dumps := fun _ => "{}";
     xmltodict_parse := fun _ => Some (JObj []);
     default_headers := [("User-Agent", "python-requests"); ("Accept", "*/*")] |}.

Definition status (code : Z) : Response :=
  {| status_code := code; content := ""; body_json := None |}.

Definition with_body (code : Z) (j : json) : Response :=
  {| status_code := code; content := ""; body_json := Some j |}.

Definition message (code : Z) (m : string) : Response :=
  with_body code (JObj [("message", JStr m)]).

Definition bob : json :=
  JObj [("name", JStr "bob"); ("email", JStr "bob@example.com")].

(** A freshly constructed client that has sent nothing yet. *)
Definition fresh (E : Env) : World :=
  CrowdServer_init "http://crowd.example.com/" "app" "secret" (VerifyFlag false) [].

(** The same client talking to a server with a fixed answer. *)
Definition run {A} (r : Response) (m : forall E : Env, M A) : Outcome A * World :=
  m (fixed r) (fresh (fixed r)).

End Examples.

(** ** Vocabulary for the other methods *)

Definition auth_user_request `{E : Env} (username password : string)
    (w : World) : Request :=
  prepare (session (self w)) POST (rest_url (self w) ++ "/authentication")
    [("username", JStr username)]
    (Some (json_dumps (JObj [("value", JStr password)]))).

Definition get_session_request `{E : Env} (username password remote : string)
    (w : World) : Request :=
  prepare (session (self w)) POST (rest_url (self w) ++ "/session")
    [("expand", JStr "user")]
    (Some (json_dumps (JObj [("username", JStr username);
                             ("password", JStr password);
                             ("validation-factors", validation_factors remote)]))).

Definition terminate_session_request (token : string) (w : World) : Request :=
  prepare (session (self w)) DELETE
    (rest_url (self w) ++ "/session/" ++ token) [] None.

Definition remove_user_request (username : string) (w : World) : Request :=
  prepare (session (self w)) DELETE (rest_url (self w) ++ "/user")
    [("username", JStr username)] None.

Definition get_user_direct_group_request (username groupname : string)
    (w : World) : Request :=
  prepare (session (self w)) GET (rest_url (self w) ++ "/group/user/direct")
    [("groupname", JStr groupname); ("username", JStr username)] None.

Definition get_child_group_direct_request (groupname : string) (w : World)
    : Request :=
  prepare (session (self w)) GET
    (rest_url (self w) ++ "/group/child-group/direct")
    [("groupname", JStr groupname)] None.

Definition get_group_users_direct_request (groupname : string) (w : World)
    : Request :=
  prepare (session (self w)) GET (rest_url (self w) ++ "/group/user/direct")
    [("groupname", JStr groupname)] None.

Definition add_group_request `{E : Env} (data : dict) (w : World) : Request :=
  prepare (session (self w)) POST (rest_url (self w) ++ "/group") []
    (Some (json_dumps (JObj data))).

Definition get_groups_request (username : string) (w : World) : Request :=
  prepare (session (self w)) GET (rest_url (self w) ++ "/user/group/direct")
    [("username", JStr username)] None.

Definition get_nested_groups_request (username : string) (w : World) : Request :=
  prepare (session (self w)) GET (rest_url (self w) ++ "/user/group/nested")
    [("username", JStr username)] None.

Definition get_nested_group_users_request (groupname : string) (w : World)
    : Request :=
  prepare (session (self w)) GET (rest_url (self w) ++ "/group/user/nested")
    [("groupname", JStr groupname); ("start-index", JNum 0);
     ("max-results", JNum 99999)] None.

Definition add_user_to_group_request `{E : Env} (username groupname : string)
    (w : World) : Request :=
  prepare (session (self w)) POST (rest_url (self w) ++ "/group/user/direct")
    [("groupname", JStr groupname)]
    (Some (json_dumps (JObj [("name", JStr username)]))).

Definition add_child_group_to_group_request `{E : Env}
    (parentgroupname childgroupname : string) (w : World) : Request :=
  prepare (session (self w)) POST
    (rest_url (self w) ++ "/group/child-group/direct")
    [("groupname", JStr parentgroupname)]
    (Some (json_dumps (JObj [("name", JStr childgroupname)]))).

(** The client object once the header switch of the membership dump is
    done. *)
Definition switch_to_xml (c : CrowdServer) : CrowdServer :=
  {| crowd_url := crowd_url c; app_name := app_name c; app_pass := app_pass c;
     rest_url := rest_url c;
     session := {| verify := verify (session c); auth := auth (session c);
                   headers := Headers.update (headers (session c))
                                [("Content-type", "application/xml");
                                 ("Accept", "application/xml")] |} |}.

(** The payload [add_group] starts from. *)
Definition group_template (groupname : string) : dict :=
  [("name", JStr groupname);
   ("description", JStr groupname);
   ("active", JBool true);
   ("type", JStr "GROUP")].

Definition group_keys : list string := ["name"; "description"; "active"; "type"].

(** The value the loop of [add_group] leaves for the key [f]: that of the
    last keyword equal to it, if any. *)
Fixpoint last_value (f : string) (items : list (string * json)) : option json :=
  match items with
  | [] => None
  | (k, v) :: items' =>
      match last_value f items' with
      | Some v' => Some v'
      | None => if String.eqb k f then Some v else None
      end
  end.

(** A listing entry [g] carries the name [n]. *)
Definition named (g n : json) : Prop :=
  exists fields, g = JObj fields /\ Dict.get fields "name" = Some n.

(** A call of one of the twenty-one operations of the client, with its
    arguments. *)
Inductive call : Type :=
| CallAuthPing
| CallAuthUser (username password : string)
| CallGetSession (username password remote : string)
| CallValidateSession (token remote : string)
| CallTerminateSession (token : string)
| CallAddUser (username : string) (kwargs : dict)
| CallRemoveUser (username : string)
| CallGetUser (username : string)
| CallGetUserDirectGroup (username groupname : string)
| CallGetChildGroupDirect (groupname : string)
| CallGetGroupMembership
| CallGetGroupUsersDirect (groupname : string)
| CallAddGroup (groupname : string) (kwargs : dict)
| CallGetGroups (username : string)
| CallGetNestedGroups (username : string)
| CallGetNestedGroupUsers (groupname : string)
| CallAddUserToGroup (username groupname : string)
| CallAddChildGroupToGroup (parentgroupname childgroupname : string)
| CallRemoveUserFromGroup (username groupname : string)
| CallUserExists (username : string)
| CallGroupExists (group : string).

(** The world after the call, whether it returned or raised. *)
Definition perform `{E : Env} (c : call) (w : World) : World :=
  match c with
  | CallAuthPing => after auth_ping w
  | CallAuthUser username password => after (auth_user username password) w
  | CallGetSession username password remote =>
      after (get_session username password remote) w
  | CallValidateSession token remote => after (validate_session token remote) w
  | CallTerminateSession token => after (terminate_session token) w
  | CallAddUser username kwargs => after (add_user username kwargs) w
  | CallRemoveUser username => after (remove_user username) w
  | CallGetUser username => after (get_user username) w
  | CallGetUserDirectGroup username groupname =>
      after (get_user_direct_group username groupname) w
  | CallGetChildGroupDirect groupname => after (get_child_group_direct groupname) w
  | CallGetGroupMembership => after get_group_membership w
  | CallGetGroupUsersDirect groupname => after (get_group_users_direct groupname) w
  | CallAddGroup groupname kwargs => after (add_group groupname kwargs) w
  | CallGetGroups username => after (get_groups username) w
  | CallGetNestedGroups username => after (get_nested_groups username) w
  | CallGetNestedGroupUsers groupname => after (get_nested_group_users groupname) w
  | CallAddUserToGroup username groupname =>
      after (add_user_to_group username groupname) w
  | CallAddChildGroupToGroup parent child =>
      after (add_child_group_to_group parent child) w
  | CallRemoveUserFromGroup username groupname =>
      after (remove_user_from_group username groupname) w
  | CallUserExists username => after (user_exists username) w
  | CallGroupExists group => after (group_exists group) w
  end.

(** A program of calls run in order, each from the world the one before
    left. *)
Definition perform_all `{E : Env} (cs : list call) (w : World) : World :=
  fold_left (fun w c => perform c w) cs w.

Definition is_dump (c : call) : bool :=
  match c with
  | CallGetGroupMembership => true
  | _ => false
  end.

(** The calls that check their keywords before sending anything. *)
Definition checks_keywords (c : call) : bool :=
  match c with
  | CallAddUser _ _ | CallAddGroup _ _ => true
  | _ => false
  end.

(** The request declares the media type [mime] for what it sends and what
    it accepts. *)
Definition declares (req : Request) (mime : string) : Prop :=
  Headers.get (req_headers req) "Content-type" = Some mime /\
  Headers.get (req_headers req) "Accept" = Some mime.

(** The request was sent by the client [c]: it carries the headers and
    the credentials of its session, and goes to a path under its REST
    root. *)
Definition sent_by (c : CrowdServer) (req : Request) : Prop :=
  req_headers req = headers (session c) /\
  req_auth req = auth (session c) /\
  exists path, req_url req = rest_url c ++ path.

(** The keyword [k] is a key of the payload of [add_group]. *)
Definition is_group_key (k : string) : bool :=
  existsb (String.eqb k) group_keys.

(** The method either returns true, and then the response to its request
    has the status [code], or it raises: it returns nothing else. *)
Definition true_or_raises `{E : Env} (m : M bool) (w : World) (req : Request)
    (code : Z) : Prop :=
  (status_code (transport req) = code /\ result m w = Return true) \/
  (status_code (transport req) <> code /\ exists e, result m w = Raise e).

(** The outcome [res] of a lookup follows the response [r]: absent on
    404, the decoded body on 200, [CrowdError] on any other status. *)
Definition lookup_table (res : Outcome (option json)) (r : Response) : Prop :=
  (status_code r = 404 /\ res = Return None) \/
  (status_code r = 200 /\ res = omap Some (response_json r)) \/
  (status_code r <> 404 /\ status_code r <> 200 /\
   res = Raise (CrowdError "unexpected response from Crowd server")).

(** The exception the call raises from the world [w], if it raises. *)
Definition raised_by {A} (m : M A) (w : World) : option exn :=
  match result m w with
  | Raise e => Some e
  | Return _ => None
  end.

Definition raised `{E : Env} (c : call) (w : World) : option exn :=
  match c with
  | CallAuthPing => raised_by auth_ping w
  | CallAuthUser username password => raised_by (auth_user username password) w
  | CallGetSession username password remote =>
      raised_by (get_session username password remote) w
  | CallValidateSession token remote => raised_by (validate_session token remote) w
  | CallTerminateSession token => raised_by (terminate_session token) w
  | CallAddUser username kwargs => raised_by (add_user username kwargs) w
  | CallRemoveUser username => raised_by (remove_user username) w
  | CallGetUser username => raised_by (get_user username) w
  | CallGetUserDirectGroup username groupname =>
      raised_by (get_user_direct_group username groupname) w
  | CallGetChildGroupDirect groupname =>
      raised_by (get_child_group_direct groupname) w
  | CallGetGroupMembership => raised_by get_group_membership w
  | CallGetGroupUsersDirect groupname =>
      raised_by (get_group_users_direct groupname) w
  | CallAddGroup groupname kwargs => raised_by (add_group groupname kwargs) w
  | CallGetGroups username => raised_by (get_groups username) w
  | CallGetNestedGroups username => raised_by (get_nested_groups username) w
  | CallGetNestedGroupUsers groupname =>
      raised_by (get_nested_group_users groupname) w
  | CallAddUserToGroup username groupname =>
      raised_by (add_user_to_group username groupname) w
  | CallAddChildGroupToGroup parent child =>
      raised_by (add_child_group_to_group parent child) w
  | CallRemoveUserFromGroup username groupname =>
      raised_by (remove_user_from_group username groupname) w
  | CallUserExists username => raised_by (user_exists username) w
  | CallGroupExists group => raised_by (group_exists group) w
  end.

(** What a 404 makes [remove_user_from_group] raise, by the decoded
    body. *)
Definition not_found_error (body : option json) : exn :=
  match body with
  | None => ValueError "No JSON object could be decoded"
  | Some (JObj o) =>
      match Dict.get o "message" with
      | None => KeyError "message"
      | Some (JStr m) =>
          if PyStr.startswith (PyStr.lower m) "group" then CrowdNoSuchGroup
          else if PyStr.startswith (PyStr.lower m) "user" then CrowdNoSuchUser
          else CrowdError "unknown server response"
      | Some _ => AttributeError
      end
  | Some _ => TypeError
  end.

(** A listing of two groups, as the server sends it. *)
Definition admins_and_staff : json :=
  JObj [("expand", JStr "group");
        ("groups", JArr [JObj [("link", JNull); ("name", JStr "admins")];
                         JObj [("name", JStr "staff")]])].

(** A server that reports a missing group in capitals when the request is
    about alice, and in the usual case otherwise. *)
Definition shouting_for_alice : Env :=
  {| transport := fun req =>
       match Dict.get (req_params req) "username" with
       | Some (JStr "alice") => Examples.message 404 "GROUP ADMINS NOT FOUND"
       | _ => Examples.message 404 "Group admins not found"
       end;
     json_dumps := fun _ => "{}";
     xmltodict_parse := fun _ => Some (JObj []);
     default_headers := [] |}.

(** The exception, when it is a [CrowdError], carries a text that is not
    empty. *)
Definition has_message (e : exn) : Prop :=
  forall m, e = CrowdError m -> m <> "".

Definition get_group_membership_request (w : World) : Request :=
  prepare (session (switch_to_xml (self w))) GET
    (rest_url (self w) ++ "/group/membership") [] None.

(** The outcome [res] of an authentication follows the response [r]: the
    decoded body on the status [code], [CrowdAuthFailure] with the
    'message' of the decoded body on 400 (or what reading the body
    raises), [CrowdError] on any other status. *)
Definition authentication_table (res : Outcome json) (r : Response) (code : Z)
    : Prop :=
  (status_code r = code /\ res = response_json r) \/
  (status_code r = 400 /\
   res = obind (response_json r) (fun j =>
         obind (subscript j "message") (fun message =>
         Raise (CrowdAuthFailure (Some message))))) \/
  (status_code r <> code /\ status_code r <> 400 /\
   res = Raise (CrowdError "unexpected response from Crowd server")).

(** * Properties *)

(** Unfolds a method down to the transport's response. *)
Ltac run_method :=
  unfold bind, get_self, _get, _post, _delete, session_request,
    session_headers_update, ret, raise, lift; cbn [fst snd self sent].

(** ** Authentication ping *)

Section AuthPing.

Context `{E : Env}.

(** C2. [auth_ping] sends one GET and maps the status of the response:
    404 gives true, 401 gives false, every other status raises
    [CrowdError]; these three cases are the only outcomes. *)
Theorem auth_ping_outcomes (w : World) :
  let r := transport (auth_ping_request w) in
  sent (after auth_ping w) = (sent w ++ [auth_ping_request w])%list /\
  ((status_code r = 404 /\ result auth_ping w = Return true) \/
   (status_code r = 401 /\ result auth_ping w = Return false) \/
   (status_code r <> 404 /\ status_code r <> 401 /\
    result auth_ping w = Raise (CrowdError "unidentified problem"))).
Proof.
  unfold result, after, auth_ping, auth_ping_request. run_method.
  set (r := transport _).
  destruct (Z.eqb_spec (status_code r) 401) as [H401 | H401];
    [ split; [reflexivity | right; left; split; [exact H401 | reflexivity]] | ].
  destruct (Z.eqb_spec (status_code r) 404) as [H404 | H404];
    [ split; [reflexivity | left; split; [exact H404 | reflexivity]] | ].
  split; [reflexivity | right; right; repeat split; assumption].
Qed.

End AuthPing.

Example auth_ping_404 :
  fst (Examples.run (Examples.status 404) (@auth_ping)) = Return true.
Proof. reflexivity. Qed.

Example auth_ping_401 :
  fst (Examples.run (Examples.status 401) (@auth_ping)) = Return false.
Proof. reflexivity. Qed.

Example auth_ping_500 :
  fst (Examples.run (Examples.status 500) (@auth_ping))
  = Raise (CrowdError "unidentified problem").
Proof. reflexivity. Qed.

(** ** Lookups and session validation *)

Section Lookups.

Context `{E : Env}.

(** C7. [get_user] maps the status of the response: 404 gives [None]
    and no error, 200 gives the mapping the body decodes to, every
    other status raises [CrowdError]. *)
Theorem get_user_outcomes (username : string) (w : World) :
  let r := transport (get_user_request username w) in
  (status_code r = 404 /\ result (get_user username) w = Return None) \/
  (status_code r = 200 /\
   result (get_user username) w = omap Some (response_json r)) \/
  (status_code r <> 404 /\ status_code r <> 200 /\
   result (get_user username) w
   = Raise (CrowdError "unexpected response from Crowd server")).
Proof.
  unfold result, get_user, get_user_request. run_method.
  set (r := transport _).
  destruct (Z.eqb_spec (status_code r) 200) as [H200 | H200].
  - right; left. split; [exact H200 | ].
    unfold omap, obind. destruct (response_json r); reflexivity.
  - destruct (Z.eqb_spec (status_code r) 404) as [H404 | H404].
    + left. split; [exact H404 | reflexivity].
    + right; right. repeat split; assumption.
Qed.

(** [response.ok] is false exactly on the error statuses. *)
Lemma ok_false_iff (r : Response) :
  ok r = false <-> error_status (status_code r).
Proof.
  unfold ok, error_status.
  rewrite negb_false_iff, andb_true_iff, Z.leb_le, Z.ltb_lt. tauto.
Qed.

Lemma ok_true_iff (r : Response) :
  ok r = true <-> ~ error_status (status_code r).
Proof.
  rewrite <- ok_false_iff. destruct (ok r); split; congruence.
Qed.

(** C5, as the code has it. [validate_session] returns what the body
    decodes to for every status outside 400..599, and raises
    [CrowdAuthFailure] for every status in 400..599. *)
Theorem validate_session_outcomes (token remote : string) (w : World) :
  let r := transport (validate_session_request token remote w) in
  (~ error_status (status_code r) /\
   result (validate_session token remote) w = response_json r) \/
  (error_status (status_code r) /\
   result (validate_session token remote) w = Raise (CrowdAuthFailure None)).
Proof.
  unfold result, validate_session, validate_session_request. run_method.
  set (r := transport _).
  destruct (ok r) eqn:Hok; cbn [negb].
  - left. split; [apply ok_true_iff; exact Hok | reflexivity].
  - right. split; [apply ok_false_iff; exact Hok | reflexivity].
Qed.

End Lookups.

Example get_user_404 :
  fst (Examples.run (Examples.status 404) (fun E => get_user "bob")) = Return None.
Proof. reflexivity. Qed.

Example get_user_200 :
  fst (Examples.run (Examples.with_body 200 Examples.bob) (fun E => get_user "bob"))
  = Return (Some Examples.bob).
Proof. reflexivity. Qed.

Example validate_session_200 :
  fst (Examples.run (Examples.with_body 200 Examples.bob)
         (fun E => validate_session "token" "127.0.0.1"))
  = Return Examples.bob.
Proof. reflexivity. Qed.

Example validate_session_401 :
  fst (Examples.run (Examples.status 401)
         (fun E => validate_session "token" "127.0.0.1"))
  = Raise (CrowdAuthFailure None).
Proof. reflexivity. Qed.

(** C5, as the claim words it, fails: 300 and 304 are not 2xx statuses,
    yet the call does not raise [CrowdAuthFailure]; it returns the decoded
    body of the 300 and fails in the decoder on the empty 304. *)
Lemma validate_session_3xx_no_auth_failure :
  let r300 := Examples.with_body 300 Examples.bob in
  let r304 := Examples.status 304 in
  (~ (200 <= status_code r300 < 300) /\
   fst (Examples.run r300 (fun E => validate_session "token" "127.0.0.1"))
   = Return Examples.bob) /\
  (~ (200 <= status_code r304 < 300) /\
   forall detail,
     fst (Examples.run r304 (fun E => validate_session "token" "127.0.0.1"))
     <> Raise (CrowdAuthFailure detail)).
Proof.
  cbv zeta. split; split.
  - cbn. lia.
  - reflexivity.
  - cbn. lia.
  - intros detail. discriminate.
Qed.

(** ** Removing a user from a group *)

Section RemoveUserFromGroup.

Context `{E : Env}.

(** A text that starts with "user" does not start with "group". *)
Lemma startswith_user_not_group (s : string) :
  PyStr.startswith s "user" = true -> PyStr.startswith s "group" = false.
Proof.
  destruct s as [| c s]; [discriminate | ].
  change (("u" =? c)%char && PyStr.startswith s "ser" = true ->
          ("g" =? c)%char && PyStr.startswith s "roup" = false).
  destruct (Ascii.eqb_spec "u" c) as [<- | _]; [reflexivity | discriminate].
Qed.

(** C1. On a 404 whose body carries a text under 'message', the error
    follows the lowercased text: it starts with 'group' gives
    [CrowdNoSuchGroup], it starts with 'user' gives [CrowdNoSuchUser],
    anything else gives [CrowdError]. *)
Theorem remove_user_from_group_not_found
    (username groupname : string) (w : World)
    (r : Response) (body : dict) (m : string) :
  transport (remove_user_from_group_request username groupname w) = r ->
  status_code r = 404 ->
  body_json r = Some (JObj body) ->
  Dict.get body "message" = Some (JStr m) ->
  (PyStr.startswith (PyStr.lower m) "group" = true ->
   result (remove_user_from_group username groupname) w
   = Raise CrowdNoSuchGroup) /\
  (PyStr.startswith (PyStr.lower m) "user" = true ->
   result (remove_user_from_group username groupname) w
   = Raise CrowdNoSuchUser) /\
  (PyStr.startswith (PyStr.lower m) "group" = false ->
   PyStr.startswith (PyStr.lower m) "user" = false ->
   result (remove_user_from_group username groupname) w
   = Raise (CrowdError "unknown server response")).
Proof.
  intros Hr H404 Hbody Hmsg.
  assert (Hrun : result (remove_user_from_group username groupname) w
                 = if PyStr.startswith (PyStr.lower m) "group"
                   then Raise CrowdNoSuchGroup
                   else if PyStr.startswith (PyStr.lower m) "user"
                        then Raise CrowdNoSuchUser
                        else Raise (CrowdError "unknown server response")).
  { unfold result, remove_user_from_group. run_method.
    fold (remove_user_from_group_request username groupname w).
    rewrite Hr, H404. cbn [Z.eqb Pos.eqb].
    unfold response_json. rewrite Hbody.
    unfold subscript_message, Dict.getitem. rewrite Hmsg.
    cbn [obind value_lower].
    destruct (PyStr.startswith (PyStr.lower m) "group"); [reflexivity | ].
    destruct (PyStr.startswith (PyStr.lower m) "user"); reflexivity. }
  rewrite Hrun. repeat split.
  - intros ->. reflexivity.
  - intros Hu. rewrite (startswith_user_not_group _ Hu), Hu. reflexivity.
  - intros -> ->. reflexivity.
Qed.

End RemoveUserFromGroup.

(** C1 at a concrete response: "Group admins not found". *)
Lemma remove_user_from_group_not_found_witness :
  fst (Examples.run (Examples.message 404 "Group admins not found")
         (fun E => remove_user_from_group "bob" "admins"))
  = Raise CrowdNoSuchGroup.
Proof.
  exact (proj1 (@remove_user_from_group_not_found
                  (Examples.fixed (Examples.message 404 "Group admins not found"))
                  "bob" "admins"
                  (Examples.fresh
                     (Examples.fixed (Examples.message 404 "Group admins not found")))
                  (Examples.message 404 "Group admins not found")
                  [("message", JStr "Group admins not found")]
                  "Group admins not found"
                  eq_refl eq_refl eq_refl eq_refl)
               eq_refl).
Defined.

Example remove_user_from_group_user_missing :
  fst (Examples.run (Examples.message 404 "User bob not found")
         (fun E => remove_user_from_group "bob" "admins"))
  = Raise CrowdNoSuchUser.
Proof. reflexivity. Qed.

Example remove_user_from_group_other_message :
  fst (Examples.run (Examples.message 404 "Membership not found")
         (fun E => remove_user_from_group "bob" "admins"))
  = Raise (CrowdError "unknown server response").
Proof. reflexivity. Qed.

(** Outside the three cases: a body without the field, and a body that is
    not JSON, raise what the lookup and the decoder raise. *)
Example remove_user_from_group_no_message :
  fst (Examples.run (Examples.with_body 404 (JObj []))
         (fun E => remove_user_from_group "bob" "admins"))
  = Raise (KeyError "message").
Proof. reflexivity. Qed.

Example remove_user_from_group_204 :
  fst (Examples.run (Examples.status 204)
         (fun E => remove_user_from_group "bob" "admins"))
  = Return true.
Proof. reflexivity. Qed.

(** ** Existence checks *)

Section ExistenceChecks.

Context `{E : Env}.

(** A request leaves the client object as it was and adds itself to the
    trace. *)
Lemma session_request_self (m : verb) (url : string) (params : dict)
    (data : option string) (w : World) :
  self (after (session_request m url params data) w) = self w.
Proof. reflexivity. Qed.

Lemma user_exists_self (username : string) (w : World) :
  self (after (user_exists username) w) = self w.
Proof.
  unfold after, user_exists. run_method.
  destruct (negb (ok _)); reflexivity.
Qed.

Lemma group_exists_self (group : string) (w : World) :
  self (after (group_exists group) w) = self w.
Proof.
  unfold after, group_exists. run_method.
  destruct (negb (ok _)); reflexivity.
Qed.

(** The answer of [user_exists] depends on the world through the client
    object only, not through the trace. *)
Lemma user_exists_result (username : string) (w : World) :
  result (user_exists username) w
  = if ok (transport (user_exists_request username w))
    then Return (Some true) else Return None.
Proof.
  unfold result, user_exists, user_exists_request. run_method.
  destruct (ok _); reflexivity.
Qed.

Lemma group_exists_result (group : string) (w : World) :
  result (group_exists group) w
  = if ok (transport (group_exists_request group w))
    then Return (Some true) else Return None.
Proof.
  unfold result, group_exists, group_exists_request. run_method.
  destruct (ok _); reflexivity.
Qed.

(** C8. [user_exists] and [group_exists] leave the client object
    untouched, and a second call with the same argument, against the
    same server, gives the result of the first. *)
Theorem exists_checks_repeatable (name : string) (w : World) :
  (self (after (user_exists name) w) = self w /\
   result (user_exists name) (after (user_exists name) w)
   = result (user_exists name) w) /\
  (self (after (group_exists name) w) = self w /\
   result (group_exists name) (after (group_exists name) w)
   = result (group_exists name) w).
Proof.
  split; split.
  - apply user_exists_self.
  - rewrite !user_exists_result. unfold user_exists_request.
    rewrite user_exists_self. reflexivity.
  - apply group_exists_self.
  - rewrite !group_exists_result. unfold group_exists_request.
    rewrite group_exists_self. reflexivity.
Qed.

End ExistenceChecks.

Example user_exists_twice :
  let E := Examples.fixed (Examples.status 200) in
  let w := Examples.fresh E in
  result (user_exists "bob") w = Return (Some true) /\
  result (user_exists "bob") (after (user_exists "bob") w) = Return (Some true).
Proof. split; reflexivity. Qed.

Example group_exists_twice :
  let E := Examples.fixed (Examples.status 404) in
  let w := Examples.fresh E in
  result (group_exists "admins") w = Return None /\
  result (group_exists "admins") (after (group_exists "admins") w) = Return None.
Proof. split; reflexivity. Qed.

(** ** Session headers *)

Section SessionHeaders.

Context `{E : Env}.

Lemma same_name_refl (n : string) : Headers.same_name n n = true.
Proof. apply String.eqb_refl. Qed.

Lemma same_name_trans_false (a b c : string) :
  Headers.same_name a b = false -> Headers.same_name b c = true ->
  Headers.same_name a c = false.
Proof.
  unfold Headers.same_name. rewrite String.eqb_eq, !String.eqb_neq.
  intros Hab Hbc. congruence.
Qed.

Lemma get_set_same (h : Headers.t) (n v : string) :
  Headers.get (Headers.set h n v) n = Some v.
Proof.
  induction h as [| [n0 v0] h IH]; cbn.
  - rewrite same_name_refl. reflexivity.
  - destruct (Headers.same_name n n0) eqn:Hn; cbn.
    + rewrite same_name_refl. reflexivity.
    + rewrite Hn. exact IH.
Qed.

Lemma get_set_other (h : Headers.t) (n n' v : string) :
  Headers.same_name n n' = false ->
  Headers.get (Headers.set h n' v) n = Headers.get h n.
Proof.
  intros Hnn'. induction h as [| [n0 v0] h IH]; cbn.
  - rewrite Hnn'. reflexivity.
  - destruct (Headers.same_name n' n0) eqn:Hn; cbn.
    + rewrite Hnn', (same_name_trans_false _ _ _ Hnn' Hn). reflexivity.
    + destruct (Headers.same_name n n0); [reflexivity | exact IH].
Qed.

(** After [update] with a content type and an accept entry, both are
    what the session holds. *)
Lemma update_content_type_accept (h : Headers.t) (v : string) :
  let h' := Headers.update h [("Content-type", v); ("Accept", v)] in
  Headers.get h' "Content-type" = Some v /\ Headers.get h' "Accept" = Some v.
Proof.
  cbn. split.
  - rewrite get_set_other by reflexivity. apply get_set_same.
  - apply get_set_same.
Qed.

(** The headers of the session once [get_group_membership] is over,
    whatever its outcome. *)
Lemma get_group_membership_headers (w : World) :
  headers (session (self (after get_group_membership w)))
  = Headers.update (headers (session (self w)))
      [("Content-type", "application/xml"); ("Accept", "application/xml")].
Proof.
  unfold after, get_group_membership. run_method.
  set (r := transport _).
  destruct (status_code r =? 200).
  - destruct (xmltodict_parse (content r)); reflexivity.
  - destruct (status_code r =? 404); reflexivity.
Qed.

(** C6, what the code does. After [get_group_membership] is over,
    whatever its outcome, the next [get_user] goes out with the XML
    content type and accept headers: the switch is not undone. *)
Theorem get_group_membership_leaves_xml_headers (username : string) (w : World) :
  let w1 := after get_group_membership w in
  let req := get_user_request username w1 in
  sent (after (get_user username) w1) = (sent w1 ++ [req])%list /\
  Headers.get (req_headers req) "Content-type" = Some "application/xml" /\
  Headers.get (req_headers req) "Accept" = Some "application/xml".
Proof.
  cbv zeta. split.
  - unfold after at 1, get_user, get_user_request. run_method.
    set (r := transport _).
    destruct (status_code r =? 200).
    + destruct (response_json r); reflexivity.
    + destruct (status_code r =? 404); reflexivity.
  - unfold get_user_request, prepare. cbn [req_headers].
    rewrite get_group_membership_headers.
    apply update_content_type_accept.
Qed.

End SessionHeaders.

(** A fresh client declares JSON; once the membership dump has run, the
    same lookup declares XML. *)
Example get_user_headers_before_and_after_dump :
  let E := Examples.fixed (Examples.status 200) in
  let w := Examples.fresh E in
  let w1 := after get_group_membership w in
  Headers.get (req_headers (get_user_request "bob" w)) "Accept"
  = Some "application/json" /\
  Headers.get (req_headers (get_user_request "bob" w)) "Content-type"
  = Some "application/json" /\
  Headers.get (req_headers (get_user_request "bob" w1)) "Accept"
  = Some "application/xml" /\
  Headers.get (req_headers (get_user_request "bob" w1)) "Content-type"
  = Some "application/xml".
Proof. repeat split; reflexivity. Qed.

(** ** Construction *)

Section Construction.

Context `{E : Env}.

(** [rstrip("/")] removes a run of slashes from the end and leaves a
    text that does not end in a slash. *)
Lemma rstrip_slash (s : string) :
  exists k : nat,
    s = PyStr.rstrip s "/" ++ PyStr.repeat_char "/" k /\
    PyStr.ends_with_char (PyStr.rstrip s "/") "/" = false.
Proof.
  induction s as [| c s IH].
  - exists 0%nat. split; reflexivity.
  - destruct IH as [k [Hs Hend]]. cbn [PyStr.rstrip].
    destruct (PyStr.rstrip s "/") as [| d r] eqn:Hr.
    + cbn [PyStr.mem]. rewrite orb_false_r.
      destruct (Ascii.eqb_spec c "/") as [-> | Hc].
      * exists (S k). split; [ | reflexivity].
        cbn. rewrite Hs at 1. reflexivity.
      * exists k. split.
        -- cbn. rewrite Hs at 1. reflexivity.
        -- cbn. apply Ascii.eqb_neq. exact Hc.
    + exists k. split.
      * cbn. rewrite Hs at 1. reflexivity.
      * exact Hend.
Qed.

(** C9. For a non-empty base URL the constructor sets the REST root to
    the URL without its trailing slashes followed by
    "/rest/usermanagement/1", keeps the application name and secret (also
    as the session's credentials) and the TLS policy, and sends
    nothing. *)
Theorem CrowdServer_init_spec (url name secret : string) (ssl_verify : Verify)
    (trace : list Request) :
  url <> "" ->
  let w := CrowdServer_init url name secret ssl_verify trace in
  (exists (stem : string) (k : nat),
      url = stem ++ PyStr.repeat_char "/" k /\
      PyStr.ends_with_char stem "/" = false /\
      rest_url (self w) = stem ++ "/rest/usermanagement/1") /\
  crowd_url (self w) = url /\
  app_name (self w) = name /\
  app_pass (self w) = secret /\
  auth (session (self w)) = Some (name, secret) /\
  verify (session (self w)) = ssl_verify /\
  sent w = trace.
Proof.
  intros _. cbv zeta. split; [ | repeat split].
  destruct (rstrip_slash url) as [k [Hurl Hend]].
  exists (PyStr.rstrip url "/"), k. repeat split; assumption.
Qed.

End Construction.

(** C9 at "http://crowd.example.com//": both slashes go. *)
Lemma CrowdServer_init_spec_witness :
  let E := Examples.fixed (Examples.status 200) in
  let w := CrowdServer_init "http://crowd.example.com//" "app" "secret"
             (VerifyBundle "/etc/ssl/ca.pem") [] in
  rest_url (self w) = "http://crowd.example.com/rest/usermanagement/1" /\
  verify (session (self w)) = VerifyBundle "/etc/ssl/ca.pem" /\
  sent w = [].
Proof.
  cbv zeta.
  pose proof (@CrowdServer_init_spec (Examples.fixed (Examples.status 200))
                "http://crowd.example.com//" "app" "secret"
                (VerifyBundle "/etc/ssl/ca.pem") []
                ltac:(discriminate)) as H.
  cbv zeta in H.
  destruct H as [_ [_ [_ [_ [_ [Hv Hs]]]]]].
  split; [reflexivity | split; [exact Hv | exact Hs]].
Defined.

(** ** Dictionaries *)

Section DictFacts.

Lemma get_None_contains (d : dict) (k : string) :
  Dict.get d k = None <-> Dict.contains d k = false.
Proof.
  induction d as [| [k' v'] d IH]; cbn; [tauto | ].
  destruct (String.eqb k k'); cbn; [split; discriminate | exact IH].
Qed.

Lemma contains_keys (d : dict) (k : string) :
  Dict.contains d k = existsb (String.eqb k) (map fst d).
Proof.
  induction d as [| [k' v'] d IH]; cbn; [reflexivity | ].
  rewrite IH. reflexivity.
Qed.

Lemma setitem_keys (d : dict) (k : string) (v : json) :
  Dict.contains d k = true -> map fst (Dict.setitem d k v) = map fst d.
Proof.
  induction d as [| [k' v'] d IH]; cbn; [discriminate | ].
  destruct (String.eqb k k'); cbn; [reflexivity | ].
  intros H. rewrite (IH H). reflexivity.
Qed.

Lemma get_setitem_same (d : dict) (k : string) (v : json) :
  Dict.get (Dict.setitem d k v) k = Some v.
Proof.
  induction d as [| [k' v'] d IH]; cbn.
  - rewrite String.eqb_refl. reflexivity.
  - destruct (String.eqb k k') eqn:Hk; cbn; rewrite Hk; [reflexivity | exact IH].
Qed.

Lemma get_setitem_other (d : dict) (k k' : string) (v : json) :
  k <> k' -> Dict.get (Dict.setitem d k' v) k = Dict.get d k.
Proof.
  intros Hne. induction d as [| [k0 v0] d IH]; cbn.
  - apply String.eqb_neq in Hne. rewrite Hne. reflexivity.
  - destruct (String.eqb_spec k' k0) as [<- | Hk0]; cbn.
    + apply String.eqb_neq in Hne. rewrite Hne. reflexivity.
    + destruct (String.eqb k k0); [reflexivity | exact IH].
Qed.

Lemma In_delitem (d : dict) (p k : string) (v : json) :
  In (k, v) (Dict.delitem d p) <-> In (k, v) d /\ k <> p.
Proof.
  induction d as [| [k0 v0] d IH]; cbn; [tauto | ].
  destruct (String.eqb_spec p k0) as [<- | Hp]; cbn; rewrite IH.
  - split; [tauto | ].
    intros [[Heq | Hin] Hne]; [congruence | tauto].
  - split; [ | tauto].
    intros [Heq | [Hin Hne]]; [ | tauto].
    split; [tauto | congruence].
Qed.

(** What [last_given] finds is a keyword of the list naming the field. *)
Lemma last_given_Some (f : string) (items : list (string * json)) (v : json) :
  last_given f items = Some v ->
  exists k, In (k, v) items /\ PyStr.replace "_" "-" k = f.
Proof.
  induction items as [| [k0 v0] items IH]; cbn; [discriminate | ].
  destruct (last_given f items) as [v' |].
  - intros [= <-]. destruct (IH eq_refl) as [k [Hin Hk]].
    exists k. tauto.
  - destruct (String.eqb_spec (PyStr.replace "_" "-" k0) f) as [Hk0 | _];
      [ | discriminate].
    intros [= <-]. exists k0. tauto.
Qed.

Lemma last_given_None (f : string) (items : list (string * json)) :
  last_given f items = None ->
  forall k v, In (k, v) items -> PyStr.replace "_" "-" k <> f.
Proof.
  induction items as [| [k0 v0] items IH]; cbn; [tauto | ].
  destruct (last_given f items) as [v' |]; [discriminate | ].
  destruct (String.eqb_spec (PyStr.replace "_" "-" k0) f) as [_ | Hk0];
    [discriminate | ].
  intros _ k v [[= <- <-] | Hin]; [exact Hk0 | exact (IH eq_refl k v Hin)].
Qed.

End DictFacts.

(** ** Creating a user *)

Section AddUser.

Context `{E : Env}.

Lemma add_user_payload_missing_email (username : string) (kwargs : dict) :
  Dict.contains kwargs "email" = false ->
  add_user_payload username kwargs = Raise AttributeError.
Proof.
  intros H. apply get_None_contains in H.
  unfold add_user_payload, Dict.getitem. rewrite H. reflexivity.
Qed.

Lemma add_user_payload_missing_password (username : string) (kwargs : dict) :
  Dict.contains kwargs "email" = true ->
  Dict.contains kwargs "password" = false ->
  add_user_payload username kwargs = Raise AttributeError.
Proof.
  intros He Hp. apply get_None_contains in Hp.
  unfold add_user_payload, Dict.getitem. rewrite Hp.
  destruct (Dict.get kwargs "email") eqn:Ge; [reflexivity | ].
  apply get_None_contains in Ge. congruence.
Qed.

Lemma add_user_payload_ok (username : string) (kwargs : dict) :
  Dict.contains kwargs "email" = true ->
  Dict.contains kwargs "password" = true ->
  exists email password,
    add_user_payload username kwargs
    = Return (payload_template username email password).
Proof.
  intros He Hp. unfold add_user_payload, Dict.getitem.
  destruct (Dict.get kwargs "email") as [email |] eqn:Ge;
    [ | apply get_None_contains in Ge; congruence].
  destruct (Dict.get kwargs "password") as [password |] eqn:Gp;
    [ | apply get_None_contains in Gp; congruence].
  exists email, password. reflexivity.
Qed.

(** A failure of the local checks leaves the world as it was. *)
Lemma add_user_payload_raise (username : string) (kwargs : dict) (w : World)
    (e : exn) :
  add_user_payload username kwargs = Raise e ->
  add_user username kwargs w = (Raise e, w).
Proof.
  intros H. unfold add_user. run_method. rewrite H. reflexivity.
Qed.

Lemma add_user_fill_raise (username : string) (kwargs data : dict) (w : World)
    (e : exn) :
  add_user_payload username kwargs = Return data ->
  add_user_fill (Dict.delitem kwargs "password") data = Raise e ->
  add_user username kwargs w = (Raise e, w).
Proof.
  intros Hp Hf. unfold add_user. run_method. rewrite Hp, Hf. reflexivity.
Qed.

(** Once the local checks pass, exactly one request goes out, carrying
    the payload. *)
Lemma add_user_sends (username : string) (kwargs data data' : dict) (w : World) :
  add_user_payload username kwargs = Return data ->
  add_user_fill (Dict.delitem kwargs "password") data = Return data' ->
  after (add_user username kwargs) w
  = {| self := self w; sent := sent w ++ [add_user_request data' w] |}.
Proof.
  intros Hp Hf. unfold after, add_user, add_user_request. run_method.
  rewrite Hp, Hf. set (r := transport _).
  destruct (status_code r =? 201); [reflexivity | ].
  destruct (status_code r =? 400); [reflexivity | ].
  destruct (status_code r =? 403); reflexivity.
Qed.

(** The membership test of the loop, for a payload with the template's
    keys. *)
Lemma contains_payload_key (data : dict) (k : string) :
  map fst data = payload_keys ->
  Dict.contains data (PyStr.replace "_" "-" k) = names_payload_field k.
Proof.
  intros Hkeys. rewrite contains_keys, Hkeys. reflexivity.
Qed.

(** The loop stops at a keyword that names no payload field. *)
Lemma add_user_fill_rejects (items : list (string * json)) :
  forall data : dict,
    map fst data = payload_keys ->
    (exists k v, In (k, v) items /\ names_payload_field k = false) ->
    exists k v, In (k, v) items /\ names_payload_field k = false /\
                add_user_fill items data
                = Raise (ValueError ("invalid argument " ++ k)).
Proof.
  induction items as [| [k0 v0] items IH]; intros data Hkeys [k [v [Hin Hk]]].
  - destruct Hin.
  - cbn [add_user_fill]. rewrite (contains_payload_key data k0 Hkeys).
    destruct (names_payload_field k0) eqn:Hk0; cbn [negb].
    + destruct Hin as [[= <- <-] | Hin]; [congruence | ].
      destruct (IH (Dict.setitem data (PyStr.replace "_" "-" k0) v0))
        as [k' [v' [Hin' [Hk' Hrun]]]].
      * rewrite setitem_keys; [exact Hkeys | ].
        rewrite (contains_payload_key data k0 Hkeys). exact Hk0.
      * exists k, v. tauto.
      * exists k', v'. cbn [In]. tauto.
    + exists k0, v0. cbn [In]. tauto.
Qed.

(** The loop runs to its end when every keyword names a payload field;
    each field then holds the last value given for it, or what it held
    before. *)
Lemma add_user_fill_accepts (items : list (string * json)) :
  forall data : dict,
    map fst data = payload_keys ->
    (forall k v, In (k, v) items -> names_payload_field k = true) ->
    exists data',
      add_user_fill items data = Return data' /\
      map fst data' = payload_keys /\
      forall f, Dict.get data' f
                = match last_given f items with
                  | Some v => Some v
                  | None => Dict.get data f
                  end.
Proof.
  induction items as [| [k0 v0] items IH]; intros data Hkeys Hall.
  - exists data. split; [reflexivity | split; [exact Hkeys | reflexivity]].
  - cbn [add_user_fill]. rewrite (contains_payload_key data k0 Hkeys).
    rewrite (Hall k0 v0 (or_introl eq_refl)). cbn [negb].
    destruct (IH (Dict.setitem data (PyStr.replace "_" "-" k0) v0))
      as [data' [Hrun [Hkeys' Hget]]].
    + rewrite setitem_keys; [exact Hkeys | ].
      rewrite (contains_payload_key data k0 Hkeys).
      exact (Hall k0 v0 (or_introl eq_refl)).
    + intros k v Hin. apply (Hall k v). right. exact Hin.
    + exists data'. split; [exact Hrun | split; [exact Hkeys' | ]].
      intros f. rewrite Hget. cbn [last_given].
      destruct (last_given f items); [reflexivity | ].
      destruct (String.eqb_spec (PyStr.replace "_" "-" k0) f) as [<- | Hne].
      * apply get_setitem_same.
      * apply get_setitem_other. congruence.
Qed.

End AddUser.

Section AddUserClaims.

Context `{E : Env}.

(** C3, what the code does. When the keywords lack the email or the
    password, [add_user] leaves the world as before, so nothing is sent,
    but what it raises is [AttributeError] and no [ValueError] naming the
    lacking field: the handler that is to build the [ValueError] reads
    [e.message] first, which no exception has. *)
Theorem add_user_missing_mandatory_attribute_error (username : string)
    (kwargs : dict) (w : World) :
  Dict.contains kwargs "email" = false \/
  Dict.contains kwargs "password" = false ->
  result (add_user username kwargs) w = Raise AttributeError /\
  (forall message,
     result (add_user username kwargs) w <> Raise (ValueError message)) /\
  after (add_user username kwargs) w = w.
Proof.
  intros Hmissing. unfold result, after.
  assert (Hpayload : add_user_payload username kwargs = Raise AttributeError).
  { destruct (Dict.contains kwargs "email") eqn:He.
    - destruct Hmissing as [Habs | Hp]; [discriminate | ].
      exact (add_user_payload_missing_password username kwargs He Hp).
    - exact (add_user_payload_missing_email username kwargs He). }
  rewrite (add_user_payload_raise username kwargs w _ Hpayload).
  split; [reflexivity | split; [intros message; discriminate | reflexivity]].
Qed.

(** C4, as the code has it. When the email and the password are given
    and some keyword, with its underscores turned into dashes, is not a
    key of the payload (name, first-name, last-name, display-name,
    email, password, active), [add_user] raises [ValueError] with the
    text "invalid argument" and such a keyword, and the world is as
    before: nothing was sent. *)
Theorem add_user_unknown_keyword (username : string) (kwargs : dict)
    (w : World) :
  Dict.contains kwargs "email" = true ->
  Dict.contains kwargs "password" = true ->
  (exists k v, In (k, v) kwargs /\ names_payload_field k = false) ->
  exists k v,
    In (k, v) kwargs /\ names_payload_field k = false /\
    result (add_user username kwargs) w
    = Raise (ValueError ("invalid argument " ++ k)) /\
    after (add_user username kwargs) w = w.
Proof.
  intros He Hp [k [v [Hin Hk]]].
  destruct (add_user_payload_ok username kwargs He Hp)
    as [email [password Hpayload]].
  destruct (add_user_fill_rejects (Dict.delitem kwargs "password")
              (payload_template username email password) eq_refl)
    as [k' [v' [Hin' [Hk' Hrun]]]].
  { exists k, v. split; [ | exact Hk].
    apply In_delitem. split; [exact Hin | ].
    intros ->. discriminate Hk. }
  exists k', v'. apply In_delitem in Hin'.
  split; [tauto | split; [exact Hk' | ]].
  unfold result, after.
  rewrite (add_user_fill_raise username kwargs _ w _ Hpayload Hrun).
  split; reflexivity.
Qed.

(** A field other than the password is supplied by the keywords exactly
    when it is supplied once the password is taken out. *)
Lemma last_given_field (kwargs data : dict) (f : string) (d : json) :
  f <> "password" ->
  Dict.get data f
  = match last_given f (Dict.delitem kwargs "password") with
    | Some v => Some v
    | None => Some d
    end ->
  field_or_default kwargs data f d.
Proof.
  intros Hf Hget. unfold field_or_default, supplies.
  destruct (last_given f (Dict.delitem kwargs "password")) as [v |] eqn:Hlast.
  - apply last_given_Some in Hlast. destruct Hlast as [k [Hin Hk]].
    apply In_delitem in Hin. split.
    + intros Hno. exfalso. apply Hno. exists k, v. tauto.
    + intros _. exists k, v. tauto.
  - split; [intros _; exact Hget | ].
    intros [k [v [Hin Hk]]]. exfalso.
    apply (last_given_None f _ Hlast k v); [ | exact Hk].
    apply In_delitem. split; [exact Hin | ].
    intros ->. apply Hf. rewrite <- Hk. reflexivity.
Qed.

(** C10. When the local checks pass, one request goes out, and in its
    payload the first name, the last name and the display name are the
    username and the active flag is true, unless the caller gave a value
    for the field, which then stands in the payload. *)
Theorem add_user_payload_defaults (username : string) (kwargs : dict)
    (w : World) :
  Dict.contains kwargs "email" = true ->
  Dict.contains kwargs "password" = true ->
  (forall k v, In (k, v) kwargs -> names_payload_field k = true) ->
  exists data : dict,
    sent (after (add_user username kwargs) w)
    = (sent w ++ [add_user_request data w])%list /\
    field_or_default kwargs data "first-name" (JStr username) /\
    field_or_default kwargs data "last-name" (JStr username) /\
    field_or_default kwargs data "display-name" (JStr username) /\
    field_or_default kwargs data "active" (JBool true).
Proof.
  intros He Hp Hall.
  destruct (add_user_payload_ok username kwargs He Hp)
    as [email [password Hpayload]].
  destruct (add_user_fill_accepts (Dict.delitem kwargs "password")
              (payload_template username email password) eq_refl)
    as [data [Hrun [Hkeys Hget]]].
  { intros k v Hin. apply In_delitem in Hin. apply (Hall k v). tauto. }
  exists data. split.
  - rewrite (add_user_sends username kwargs _ data w Hpayload Hrun).
    reflexivity.
  - split; [ | split; [ | split]];
      (apply last_given_field; [discriminate | ]);
      rewrite Hget;
      destruct (last_given _ _); reflexivity.
Qed.

End AddUserClaims.

(** C3 at a call that gives a password and no email. *)
Lemma add_user_missing_mandatory_attribute_error_witness :
  let E := Examples.fixed (Examples.status 201) in
  let kwargs := [("password", JStr "pw")] in
  let w := Examples.fresh E in
  result (add_user "bob" kwargs) w = Raise AttributeError /\
  (forall message, result (add_user "bob" kwargs) w <> Raise (ValueError message)) /\
  after (add_user "bob" kwargs) w = w.
Proof.
  cbv zeta.
  apply (@add_user_missing_mandatory_attribute_error
           (Examples.fixed (Examples.status 201))).
  left. reflexivity.
Defined.

Example add_user_without_email :
  Examples.run (Examples.status 201)
    (fun E => add_user "bob" [("password", JStr "pw")])
  = (Raise AttributeError,
     Examples.fresh (Examples.fixed (Examples.status 201))).
Proof. reflexivity. Qed.

Example add_user_without_password :
  Examples.run (Examples.status 201)
    (fun E => add_user "bob" [("email", JStr "bob@example.com")])
  = (Raise AttributeError,
     Examples.fresh (Examples.fixed (Examples.status 201))).
Proof. reflexivity. Qed.

(** C4, as the claim words it, fails twice.  The keyword [name] is not
    among the six documented ones, yet the call goes through, sends its
    request and returns true.  And a call with a keyword of no meaning
    that also lacks the email fails in the check of the mandatory values,
    with an error that does not name that keyword. *)
Lemma add_user_accepts_name_keyword :
  let r := Examples.status 201 in
  let named := [("email", JStr "bob@example.com"); ("password", JStr "pw");
                ("name", JStr "alice")] in
  let coloured := [("password", JStr "pw"); ("colour", JStr "red")] in
  (~ In "name" documented_keywords /\
   fst (Examples.run r (fun E => add_user "bob" named)) = Return true /\
   length (sent (snd (Examples.run r (fun E => add_user "bob" named)))) = 1%nat) /\
  (~ In "colour" documented_keywords /\
   fst (Examples.run r (fun E => add_user "bob" coloured))
   = Raise AttributeError).
Proof.
  cbv zeta. split; split.
  - cbn. intuition discriminate.
  - split; reflexivity.
  - cbn. intuition discriminate.
  - reflexivity.
Qed.

(** C4 as the code has it, at a call with an unknown keyword. *)
Lemma add_user_unknown_keyword_witness :
  let E := Examples.fixed (Examples.status 201) in
  let kwargs := [("email", JStr "bob@example.com"); ("password", JStr "pw");
                 ("colour", JStr "red")] in
  let w := Examples.fresh E in
  exists k v,
    In (k, v) kwargs /\ names_payload_field k = false /\
    result (add_user "bob" kwargs) w
    = Raise (ValueError ("invalid argument " ++ k)) /\
    after (add_user "bob" kwargs) w = w.
Proof.
  cbv zeta.
  apply (@add_user_unknown_keyword (Examples.fixed (Examples.status 201)));
    [reflexivity | reflexivity | ].
  exists "colour", (JStr "red"). split; [cbn; tauto | reflexivity].
Defined.

Example add_user_with_colour :
  fst (Examples.run (Examples.status 201)
         (fun E => add_user "bob" [("email", JStr "bob@example.com");
                                   ("password", JStr "pw");
                                   ("colour", JStr "red")]))
  = Raise (ValueError "invalid argument colour").
Proof. reflexivity. Qed.

(** C10 at a call that gives a first name and leaves the rest to the
    defaults. *)
Lemma add_user_payload_defaults_witness :
  let E := Examples.fixed (Examples.status 201) in
  let kwargs := [("email", JStr "bob@example.com"); ("password", JStr "pw");
                 ("first_name", JStr "Robert")] in
  let w := Examples.fresh E in
  exists data : dict,
    sent (after (add_user "bob" kwargs) w)
    = (sent w ++ [add_user_request data w])%list /\
    field_or_default kwargs data "first-name" (JStr "bob") /\
    field_or_default kwargs data "last-name" (JStr "bob") /\
    field_or_default kwargs data "display-name" (JStr "bob") /\
    field_or_default kwargs data "active" (JBool true).
Proof.
  cbv zeta.
  apply (@add_user_payload_defaults (Examples.fixed (Examples.status 201)));
    [reflexivity | reflexivity | ].
  intros k v [[= <- <-] | [[= <- <-] | [[= <- <-] | []]]]; reflexivity.
Defined.

(** The payload of that call, as the loop leaves it. *)
Example add_user_first_name_payload :
  add_user_fill [("email", JStr "bob@example.com"); ("first_name", JStr "Robert")]
    (payload_template "bob" (JStr "bob@example.com") (JStr "pw"))
  = Return [("name", JStr "bob");
            ("first-name", JStr "Robert");
            ("last-name", JStr "bob");
            ("display-name", JStr "bob");
            ("email", JStr "bob@example.com");
            ("password", JObj [("value", JStr "pw")]);
            ("active", JBool true)].
Proof. reflexivity. Qed.

(** * Further properties of the client *)

(** ** What a call does to the client and to the trace *)

(** Splits a method that has been run down to its branches. *)
Ltac branches :=
  repeat match goal with
    | |- context [if ?b then _ else _] => destruct b
    | |- context [match ?o with Return _ => _ | Raise _ => _ end] =>
        destruct o
    | |- context [match ?o with Some _ => _ | None => _ end] => destruct o
    end.

(** Closes a branch in which nothing, or one request, was sent. *)
Ltac account :=
  split;
  [ reflexivity
  | first
      [ exists (@nil Request);
        split; [symmetry; apply app_nil_r | ];
        split; [constructor | ];
        split; [cbn; lia | discriminate]
      | eexists [_];
        split; [reflexivity | ];
        split; [constructor; [ | constructor];
                unfold sent_by, prepare; cbn;
                repeat split; eexists; reflexivity | ];
        split; [cbn; lia | reflexivity] ] ].

Section Calls.

Context `{E : Env}.

(** Each call of the twenty-one operations leaves the client object as it
    was, except the membership dump, which switches the headers; it adds
    to the trace at most one request, sent by the client as the call
    leaves it. *)
Lemma perform_spec (c : call) (w : World) :
  self (perform c w) = (if is_dump c then switch_to_xml (self w) else self w) /\
  exists new : list Request,
    sent (perform c w) = (sent w ++ new)%list /\
    Forall (sent_by (self (perform c w))) new /\
    (length new <= 1)%nat /\
    (checks_keywords c = false -> length new = 1%nat).
Proof.
  destruct c; cbn [perform is_dump checks_keywords];
    unfold after, auth_ping, auth_user, get_session, validate_session,
      terminate_session, add_user,
      remove_user, get_user, get_user_direct_group, get_child_group_direct,
      get_group_membership, get_group_users_direct, add_group, get_groups,
      get_nested_groups, get_nested_group_users, add_user_to_group,
      add_child_group_to_group, remove_user_from_group, user_exists,
      group_exists;
    run_method; branches; cbn [fst snd self sent]; account.
Qed.

End Calls.

Lemma append_assoc (a b c : string) : (a ++ b) ++ c = a ++ (b ++ c).
Proof.
  induction a as [| x a IH]; cbn; [reflexivity | rewrite IH; reflexivity].
Qed.

Section Programs.

Context `{E : Env}.

(** X1. No call of any of the twenty-one operations changes the
    configuration of the client (URL, REST root, application name and
    secret, credentials and TLS policy of the session); the headers of
    the session change in the membership dump, which switches them to XML,
    and in no other call. *)
Theorem call_keeps_configuration (c : call) (w : World) :
  let before := self w in
  let now := self (perform c w) in
  crowd_url now = crowd_url before /\
  rest_url now = rest_url before /\
  app_name now = app_name before /\
  app_pass now = app_pass before /\
  auth (session now) = auth (session before) /\
  verify (session now) = verify (session before) /\
  headers (session now)
  = if is_dump c
    then Headers.update (headers (session before))
           [("Content-type", "application/xml"); ("Accept", "application/xml")]
    else headers (session before).
Proof.
  cbv zeta. destruct (perform_spec c w) as [Hself _]. rewrite Hself.
  destruct (is_dump c); repeat split.
Qed.

(** X2. Whether it returns or raises, a call of any of the twenty-one
    methods adds exactly one request to the trace, and [add_user] and
    [add_group], which check their keywords first, add one or none; the
    request carries the headers and credentials of the session and goes
    to a path under the REST root. *)
Theorem call_sends_one_request (c : call) (w : World) :
  exists new : list Request,
    sent (perform c w) = (sent w ++ new)%list /\
    Forall (sent_by (self (perform c w))) new /\
    if checks_keywords c then (length new <= 1)%nat else length new = 1%nat.
Proof.
  destruct (perform_spec c w) as [_ [new [Hsent [Hby [Hle Hone]]]]].
  exists new. split; [exact Hsent | split; [exact Hby | ]].
  destruct (checks_keywords c); [exact Hle | exact (Hone eq_refl)].
Qed.

(** A program without the membership dump leaves the client object as it
    was, and all it sends is sent by that client. *)
Lemma perform_all_without_dump (cs : list call) :
  forall w : World,
    forallb (fun c => negb (is_dump c)) cs = true ->
    self (perform_all cs w) = self w /\
    exists new : list Request,
      sent (perform_all cs w) = (sent w ++ new)%list /\
      Forall (sent_by (self w)) new.
Proof.
  induction cs as [| c cs IH]; intros w Hcs.
  - split; [reflexivity | ]. exists []. split; [ | constructor].
    symmetry. apply app_nil_r.
  - cbn in Hcs. apply andb_true_iff in Hcs. destruct Hcs as [Hc Hcs].
    apply negb_true_iff in Hc.
    destruct (perform_spec c w) as [Hself [new [Hsent [Hby _]]]].
    rewrite Hc in Hself. rewrite Hself in Hby.
    destruct (IH (perform c w) Hcs) as [Hself' [new' [Hsent' Hby']]].
    rewrite Hself in Hself', Hby'.
    change (perform_all (c :: cs) w) with (perform_all cs (perform c w)).
    split; [exact Hself' | ].
    exists (new ++ new')%list. split.
    + rewrite Hsent', Hsent, app_assoc. reflexivity.
    + apply Forall_app. split; assumption.
Qed.

(** X3. On a client just constructed, whatever the headers the library
    starts a session with, every request of a program of calls of the
    twenty-one operations that does not call the membership dump declares
    JSON, carries the application name and secret as credentials, and
    goes to a path under the REST root. *)
Theorem fresh_client_requests (url name secret : string) (ssl_verify : Verify)
    (cs : list call) :
  forallb (fun c => negb (is_dump c)) cs = true ->
  let w := perform_all cs (CrowdServer_init url name secret ssl_verify []) in
  Forall (fun req =>
            declares req "application/json" /\
            req_auth req = Some (name, secret) /\
            exists path,
              req_url req
              = PyStr.rstrip url "/" ++ "/rest/usermanagement/1" ++ path)
         (sent w).
Proof.
  intros Hcs. cbv zeta.
  destruct (perform_all_without_dump cs
              (CrowdServer_init url name secret ssl_verify []) Hcs)
    as [_ [new [Hsent Hby]]].
  rewrite Hsent. cbn [sent CrowdServer_init app].
  eapply Forall_impl; [ | exact Hby].
  intros req [Hh [Ha [path Hu]]].
  unfold declares. rewrite Hh, Ha.
  split; [ | split; [reflexivity | ]].
  - apply (update_content_type_accept default_headers "application/json").
  - exists path. rewrite Hu. cbn [self rest_url CrowdServer_init].
    rewrite append_assoc. reflexivity.
Qed.

(** Once the session declares a media type for both headers, a call
    keeps it so unless it is the membership dump, which declares XML. *)
Lemma xml_session_stays (c : call) (w : World) :
  Headers.get (headers (session (self w))) "Content-type" = Some "application/xml" ->
  Headers.get (headers (session (self w))) "Accept" = Some "application/xml" ->
  Headers.get (headers (session (self (perform c w)))) "Content-type"
  = Some "application/xml" /\
  Headers.get (headers (session (self (perform c w)))) "Accept"
  = Some "application/xml".
Proof.
  intros Hct Hacc. destruct (perform_spec c w) as [Hself _]. rewrite Hself.
  destruct (is_dump c); [ | split; assumption].
  apply (update_content_type_accept (headers (session (self w))) "application/xml").
Qed.

Lemma perform_all_xml (cs : list call) :
  forall w : World,
    Headers.get (headers (session (self w))) "Content-type"
    = Some "application/xml" ->
    Headers.get (headers (session (self w))) "Accept" = Some "application/xml" ->
    exists new : list Request,
      sent (perform_all cs w) = (sent w ++ new)%list /\
      Forall (fun req => declares req "application/xml") new.
Proof.
  induction cs as [| c cs IH]; intros w Hct Hacc.
  - exists []. split; [symmetry; apply app_nil_r | constructor].
  - destruct (xml_session_stays c w Hct Hacc) as [Hct' Hacc'].
    destruct (perform_spec c w) as [_ [new [Hsent [Hby _]]]].
    destruct (IH (perform c w) Hct' Hacc') as [new' [Hsent' Hxml']].
    change (perform_all (c :: cs) w) with (perform_all cs (perform c w)).
    exists (new ++ new')%list. split.
    + rewrite Hsent', Hsent, app_assoc. reflexivity.
    + apply Forall_app. split; [ | exact Hxml'].
      eapply Forall_impl; [ | exact Hby].
      intros req [Hh _]. unfold declares. rewrite Hh. split; assumption.
Qed.

(** X4. From the membership dump on, every request of the client
    declares XML, the request of the dump itself and those of any calls
    made after it: none of the twenty-one operations switches the headers
    back. *)
Theorem dump_switches_for_good (cs : list call) (w : World) :
  exists new : list Request,
    sent (perform_all (CallGetGroupMembership :: cs) w) = (sent w ++ new)%list /\
    new <> [] /\
    Forall (fun req => declares req "application/xml") new.
Proof.
  change (perform_all (CallGetGroupMembership :: cs) w)
    with (perform_all cs (perform CallGetGroupMembership w)).
  destruct (perform_spec CallGetGroupMembership w)
    as [Hself [new [Hsent [Hby [_ Hone]]]]].
  cbn [is_dump] in Hself.
  assert (Hxml : Headers.get (headers (session (self (perform CallGetGroupMembership w))))
                   "Content-type" = Some "application/xml" /\
                 Headers.get (headers (session (self (perform CallGetGroupMembership w))))
                   "Accept" = Some "application/xml").
  { rewrite Hself.
    apply (update_content_type_accept (headers (session (self w)))
             "application/xml"). }
  destruct Hxml as [Hct Hacc].
  destruct (perform_all_xml cs _ Hct Hacc) as [new' [Hsent' Hxml']].
  exists (new ++ new')%list. split; [ | split].
  - rewrite Hsent', Hsent, app_assoc. reflexivity.
  - specialize (Hone eq_refl). destruct new; [discriminate | discriminate].
  - apply Forall_app. split; [ | exact Hxml'].
    eapply Forall_impl; [ | exact Hby].
    intros req [Hh _]. unfold declares. rewrite Hh. split; assumption.
Qed.

End Programs.

(** X3 at a program of four calls. *)
Lemma fresh_client_requests_witness :
  let E := Examples.fixed (Examples.status 200) in
  let cs := [CallAuthPing; CallAuthUser "bob" "pw"; CallGetUser "bob";
             CallRemoveUser "bob"] in
  let w := perform_all cs
             (CrowdServer_init "http://crowd.example.com/" "app" "secret"
                (VerifyFlag true) []) in
  length (sent w) = 4%nat /\
  Forall (fun req =>
            declares req "application/json" /\
            req_auth req = Some ("app", "secret") /\
            exists path,
              req_url req
              = PyStr.rstrip "http://crowd.example.com/" "/"
                ++ "/rest/usermanagement/1" ++ path)
         (sent w).
Proof.
  cbv zeta. split; [reflexivity | ].
  apply (@fresh_client_requests (Examples.fixed (Examples.status 200))).
  reflexivity.
Defined.

(** ** Construction, further *)

Section ConstructionMore.

Context `{E : Env}.

Lemma rstrip_only_slashes (k : nat) :
  PyStr.rstrip (PyStr.repeat_char "/" k) "/" = "".
Proof.
  induction k as [| k IH]; [reflexivity | ].
  cbn [PyStr.repeat_char PyStr.rstrip]. rewrite IH. reflexivity.
Qed.

(** Slashes added at the end are stripped with the rest. *)
Lemma rstrip_more_slashes (s : string) (k : nat) :
  PyStr.rstrip (s ++ PyStr.repeat_char "/" k) "/" = PyStr.rstrip s "/".
Proof.
  induction s as [| c s IH].
  - apply rstrip_only_slashes.
  - cbn [append PyStr.rstrip]. rewrite IH. reflexivity.
Qed.

(** X5. Base URLs that differ only in the number of slashes at their end
    give the same REST root; a base URL that is empty or made of slashes
    only gives the bare path "/rest/usermanagement/1". *)
Theorem rest_url_ignores_trailing_slashes (url name secret : string)
    (ssl_verify : Verify) (trace : list Request) (k : nat) :
  rest_url (self (CrowdServer_init (url ++ PyStr.repeat_char "/" k)
                    name secret ssl_verify trace))
  = rest_url (self (CrowdServer_init url name secret ssl_verify trace)) /\
  rest_url (self (CrowdServer_init (PyStr.repeat_char "/" k)
                    name secret ssl_verify trace))
  = "/rest/usermanagement/1".
Proof.
  cbn [CrowdServer_init self rest_url]. split.
  - rewrite rstrip_more_slashes. reflexivity.
  - rewrite rstrip_only_slashes. reflexivity.
Qed.

(** A header is looked up by its name whatever the case. *)
Lemma get_same_name (h : Headers.t) (n n' : string) :
  Headers.same_name n n' = true -> Headers.get h n = Headers.get h n'.
Proof.
  unfold Headers.same_name. rewrite String.eqb_eq. intros Hn.
  induction h as [| [n0 v0] h IH]; cbn; [reflexivity | ].
  unfold Headers.same_name. rewrite Hn, IH. reflexivity.
Qed.

(** X6. The constructor sets the content type and the accept header of
    the session to JSON, under whatever case they are looked up, and
    keeps every other header the library starts a session with. *)
Theorem constructor_headers (url name secret : string) (ssl_verify : Verify)
    (trace : list Request) (n : string) :
  Headers.get
    (headers (session (self (CrowdServer_init url name secret ssl_verify trace))))
    n
  = if (Headers.same_name n "Content-type" || Headers.same_name n "Accept")%bool
    then Some "application/json"
    else Headers.get default_headers n.
Proof.
  cbn [CrowdServer_init self session headers Headers.update fold_left fst snd].
  destruct (Headers.same_name n "Accept") eqn:Hacc.
  - rewrite orb_true_r. rewrite (get_same_name _ _ _ Hacc). apply get_set_same.
  - rewrite orb_false_r. rewrite (get_set_other _ _ _ _ Hacc).
    destruct (Headers.same_name n "Content-type") eqn:Hct.
    + rewrite (get_same_name _ _ _ Hct). apply get_set_same.
    + apply (get_set_other _ _ _ _ Hct).
Qed.

End ConstructionMore.

Example constructor_headers_any_case :
  let E := Examples.fixed (Examples.status 200) in
  let h := headers (session (self (Examples.fresh E))) in
  Headers.get h "ACCEPT" = Some "application/json" /\
  Headers.get h "content-type" = Some "application/json" /\
  Headers.get h "user-agent" = Some "python-requests".
Proof. repeat split; reflexivity. Qed.

(** ** Creating a group *)

Section DictMore.

(** In a dict, whose keys are distinct, the last value given for a key is
    the value under the key. *)
Lemma last_value_get (items : dict) (f : string) :
  NoDup (map fst items) -> last_value f items = Dict.get items f.
Proof.
  induction items as [| [k v] items IH]; cbn [map fst last_value Dict.get];
    [reflexivity | ].
  intros Hnd. inversion Hnd as [| k' ks Hnotin Hnd']; subst.
  rewrite (IH Hnd'). rewrite (String.eqb_sym f k).
  destruct (String.eqb_spec k f) as [<- | Hne].
  - destruct (Dict.get items k) as [v' |] eqn:Hget; [ | reflexivity].
    exfalso. apply Hnotin.
    assert (Hc : Dict.contains items k = true).
    { destruct (Dict.contains items k) eqn:Hc; [reflexivity | ].
      apply get_None_contains in Hc. congruence. }
    rewrite contains_keys in Hc. apply existsb_exists in Hc.
    destruct Hc as [k' [Hin Heq]]. apply String.eqb_eq in Heq. subst k'.
    exact Hin.
  - destruct (Dict.get items f); reflexivity.
Qed.

Lemma add_group_fill_first_unknown (pre post : list (string * json))
    (k : string) (v : json) :
  forall data : dict,
    map fst data = group_keys ->
    Forall (fun kv => is_group_key (fst kv) = true) pre ->
    is_group_key k = false ->
    add_group_fill (pre ++ (k, v) :: post) data
    = Raise (ValueError ("invalid argument " ++ k)).
Proof.
  induction pre as [| [k0 v0] pre IH]; intros data Hkeys Hpre Hk.
  - cbn [app add_group_fill]. rewrite contains_keys, Hkeys.
    fold (is_group_key k). rewrite Hk. reflexivity.
  - inversion Hpre as [| kv pre' Hk0 Hpre']; subst. cbn [fst] in Hk0.
    cbn [app add_group_fill].
    assert (Hc : Dict.contains data k0 = true).
    { rewrite contains_keys, Hkeys. exact Hk0. }
    rewrite Hc. cbn [negb].
    apply IH; [ | exact Hpre' | exact Hk].
    rewrite (setitem_keys data k0 v0 Hc). exact Hkeys.
Qed.

Lemma add_group_fill_accepts (items : list (string * json)) :
  forall data : dict,
    map fst data = group_keys ->
    Forall (fun kv => is_group_key (fst kv) = true) items ->
    exists data',
      add_group_fill items data = Return data' /\
      map fst data' = group_keys /\
      forall f, Dict.get data' f
                = match last_value f items with
                  | Some v => Some v
                  | None => Dict.get data f
                  end.
Proof.
  induction items as [| [k0 v0] items IH]; intros data Hkeys Hall.
  - exists data. split; [reflexivity | split; [exact Hkeys | reflexivity]].
  - inversion Hall as [| kv items' Hk0 Hall']; subst. cbn [fst] in Hk0.
    assert (Hc : Dict.contains data k0 = true).
    { rewrite contains_keys, Hkeys. exact Hk0. }
    cbn [add_group_fill]. rewrite Hc. cbn [negb].
    destruct (IH (Dict.setitem data k0 v0)) as [data' [Hrun [Hkeys' Hget]]];
      [rewrite (setitem_keys data k0 v0 Hc); exact Hkeys | exact Hall' | ].
    exists data'. split; [exact Hrun | split; [exact Hkeys' | ]].
    intros f. rewrite Hget. cbn [last_value].
    destruct (last_value f items); [reflexivity | ].
    destruct (String.eqb_spec k0 f) as [<- | Hne].
    + apply get_setitem_same.
    + apply get_setitem_other. congruence.
Qed.

End DictMore.

Section AddGroup.

Context `{E : Env}.

(** X7. [add_group] checks its keywords in order against the four keys of
    the payload (name, description, active, type): at the first keyword
    that is none of them it raises [ValueError] with the text "invalid
    argument" and that keyword, and the world is as before: nothing was
    sent. *)
Theorem add_group_unknown_keyword (groupname : string)
    (pre post : list (string * json)) (k : string) (v : json) (w : World) :
  Forall (fun kv => is_group_key (fst kv) = true) pre ->
  is_group_key k = false ->
  result (add_group groupname (pre ++ (k, v) :: post)%list) w
  = Raise (ValueError ("invalid argument " ++ k)) /\
  after (add_group groupname (pre ++ (k, v) :: post)%list) w = w.
Proof.
  intros Hpre Hk. unfold result, after, add_group. run_method.
  fold (group_template groupname).
  rewrite (add_group_fill_first_unknown pre post k v
             (group_template groupname) eq_refl Hpre Hk).
  split; reflexivity.
Qed.

(** X8. When every keyword is one of the four keys, [add_group] sends one
    request; its payload has exactly the keys name, description, active
    and type, in this order, each with the value the caller gave under
    that key or else its default: the group name for name and
    description, true for active, "GROUP" for type. *)
Theorem add_group_payload (groupname : string) (kwargs : dict) (w : World) :
  NoDup (map fst kwargs) ->
  Forall (fun kv => is_group_key (fst kv) = true) kwargs ->
  exists data : dict,
    sent (after (add_group groupname kwargs) w)
    = (sent w ++ [add_group_request data w])%list /\
    map fst data = group_keys /\
    forall f, Dict.get data f
              = match Dict.get kwargs f with
                | Some v => Some v
                | None => Dict.get (group_template groupname) f
                end.
Proof.
  intros Hnd Hall.
  destruct (add_group_fill_accepts kwargs (group_template groupname) eq_refl Hall)
    as [data [Hrun [Hkeys Hget]]].
  exists data. split; [ | split; [exact Hkeys | ]].
  - unfold after, add_group, add_group_request. run_method.
    unfold group_template in Hrun. rewrite Hrun. branches; reflexivity.
  - intros f. rewrite Hget, (last_value_get kwargs f Hnd). reflexivity.
Qed.

End AddGroup.

(** X7 at a call whose second keyword is unknown. *)
Lemma add_group_unknown_keyword_witness :
  let E := Examples.fixed (Examples.status 201) in
  let kwargs := [("description", JStr "Administrators"); ("colour", JStr "red");
                 ("shape", JStr "round")] in
  let w := Examples.fresh E in
  result (add_group "admins" kwargs) w
  = Raise (ValueError "invalid argument colour") /\
  after (add_group "admins" kwargs) w = w.
Proof.
  cbv zeta.
  apply (@add_group_unknown_keyword (Examples.fixed (Examples.status 201))
           "admins" [("description", JStr "Administrators")]
           [("shape", JStr "round")] "colour" (JStr "red")).
  - repeat constructor.
  - reflexivity.
Defined.

(** X8 at a call that gives a description and nothing else. *)
Lemma add_group_payload_witness :
  let E := Examples.fixed (Examples.status 201) in
  let kwargs := [("description", JStr "Administrators")] in
  let w := Examples.fresh E in
  exists data : dict,
    sent (after (add_group "admins" kwargs) w)
    = (sent w ++ [add_group_request data w])%list /\
    map fst data = group_keys /\
    forall f, Dict.get data f
              = match Dict.get kwargs f with
                | Some v => Some v
                | None => Dict.get (group_template "admins") f
                end.
Proof.
  cbv zeta.
  apply (@add_group_payload (Examples.fixed (Examples.status 201))).
  - repeat constructor. intros [].
  - repeat constructor.
Defined.

Example add_group_description_payload :
  add_group_fill [("description", JStr "Administrators")] (group_template "admins")
  = Return [("name", JStr "admins");
            ("description", JStr "Administrators");
            ("active", JBool true);
            ("type", JStr "GROUP")].
Proof. reflexivity. Qed.

(** ** Statuses and outcomes of the other methods *)

(** Splits on the status tests of a method, keeping what each test says. *)
Ltac by_status :=
  repeat match goal with
    | |- context [?s =? ?n] => destruct (Z.eqb_spec s n)
    end.

(** Picks the case of a table that the assumptions select. *)
Ltac pick :=
  first [ solve [exfalso; lia]
        | solve [repeat split; solve [reflexivity | assumption | eexists; reflexivity]]
        | left; pick
        | right; pick ].

Section Statuses.

Context `{E : Env}.

(** X9. The mutations without local checks return true, on their own
    success status, or raise: [terminate_session], [remove_user] and
    [remove_user_from_group] return true on 204 only, [add_user_to_group]
    and [add_child_group_to_group] on 201 only; none ever returns false. *)
Theorem mutations_return_true_or_raise (token username groupname parent child : string)
    (w : World) :
  true_or_raises (terminate_session token) w
    (terminate_session_request token w) 204 /\
  true_or_raises (remove_user username) w (remove_user_request username w) 204 /\
  true_or_raises (remove_user_from_group username groupname) w
    (remove_user_from_group_request username groupname w) 204 /\
  true_or_raises (add_user_to_group username groupname) w
    (add_user_to_group_request username groupname w) 201 /\
  true_or_raises (add_child_group_to_group parent child) w
    (add_child_group_to_group_request parent child w) 201.
Proof.
  unfold true_or_raises, result, terminate_session, remove_user,
    remove_user_from_group, add_user_to_group, add_child_group_to_group,
    terminate_session_request, remove_user_request,
    remove_user_from_group_request, add_user_to_group_request,
    add_child_group_to_group_request.
  run_method.
  repeat match goal with |- _ /\ _ => split end;
    match goal with
    | |- context [status_code (transport ?q)] => set (r := transport q)
    end;
    by_status; branches; cbn [fst]; pick.
Qed.

(** X10. The lookups [get_user_direct_group], [get_child_group_direct]
    and [get_group_users_direct] answer a 404 with [None] and no error, a
    200 with what the body decodes to, and raise [CrowdError] on every
    other status. *)
Theorem lookups_outcomes (username groupname : string) (w : World) :
  lookup_table (result (get_user_direct_group username groupname) w)
    (transport (get_user_direct_group_request username groupname w)) /\
  lookup_table (result (get_child_group_direct groupname) w)
    (transport (get_child_group_direct_request groupname w)) /\
  lookup_table (result (get_group_users_direct groupname) w)
    (transport (get_group_users_direct_request groupname w)).
Proof.
  unfold lookup_table, result, get_user_direct_group, get_child_group_direct,
    get_group_users_direct, get_user_direct_group_request,
    get_child_group_direct_request, get_group_users_direct_request.
  run_method.
  repeat match goal with |- _ /\ _ => split end;
    match goal with
    | |- context [status_code (transport ?q)] => set (r := transport q)
    end;
    by_status; unfold omap, obind; destruct (response_json r);
    cbn [fst]; pick.
Qed.

(** X11. [remove_user] maps the status of the response: 204 gives true,
    403 raises [CrowdAuthDenied], 404 raises [CrowdNoSuchUser], every
    other status raises [CrowdError]. *)
Theorem remove_user_outcomes (username : string) (w : World) :
  let r := transport (remove_user_request username w) in
  (status_code r = 204 /\ result (remove_user username) w = Return true) \/
  (status_code r = 403 /\
   result (remove_user username) w
   = Raise (CrowdAuthDenied "application is not allowed to delete user")) \/
  (status_code r = 404 /\
   result (remove_user username) w = Raise CrowdNoSuchUser) \/
  (status_code r <> 204 /\ status_code r <> 403 /\ status_code r <> 404 /\
   result (remove_user username) w
   = Raise (CrowdError "unexpected response from Crowd server")).
Proof.
  unfold result, remove_user, remove_user_request. run_method.
  set (r := transport _). cbv zeta. by_status; cbn [fst]; pick.
Qed.

(** X12. Once the local checks of [add_user] pass, the status of the
    response decides: 201 gives true, 400 raises [CrowdUserExists], 403
    raises [CrowdAuthDenied], every other status raises [CrowdError]. *)
Theorem add_user_outcomes (username : string) (kwargs : dict) (w : World) :
  Dict.contains kwargs "email" = true ->
  Dict.contains kwargs "password" = true ->
  (forall k v, In (k, v) kwargs -> names_payload_field k = true) ->
  exists data : dict,
    let r := transport (add_user_request data w) in
    (status_code r = 201 /\ result (add_user username kwargs) w = Return true) \/
    (status_code r = 400 /\
     result (add_user username kwargs) w = Raise CrowdUserExists) \/
    (status_code r = 403 /\
     result (add_user username kwargs) w
     = Raise (CrowdAuthDenied "application is not allowed to create a new user")) \/
    (status_code r <> 201 /\ status_code r <> 400 /\ status_code r <> 403 /\
     result (add_user username kwargs) w
     = Raise (CrowdError "unexpected response from Crowd server")).
Proof.
  intros He Hp Hall.
  destruct (add_user_payload_ok username kwargs He Hp)
    as [email [password Hpayload]].
  destruct (add_user_fill_accepts (Dict.delitem kwargs "password")
              (payload_template username email password) eq_refl)
    as [data [Hrun _]].
  { intros k v Hin. apply In_delitem in Hin. apply (Hall k v). tauto. }
  exists data. unfold result, add_user, add_user_request. run_method.
  rewrite Hpayload, Hrun. set (r := transport _). cbv zeta.
  by_status; cbn [fst]; pick.
Qed.

(** X13. Once the keywords of [add_group] are accepted, the status of
    the response decides: 201 gives true, 400 raises [CrowdGroupExists],
    403 raises [CrowdAuthFailure], and every other status raises
    [CrowdError] with the text "status code" and the status in decimal. *)
Theorem add_group_outcomes (groupname : string) (kwargs : dict) (w : World) :
  Forall (fun kv => is_group_key (fst kv) = true) kwargs ->
  exists data : dict,
    let r := transport (add_group_request data w) in
    (status_code r = 201 /\ result (add_group groupname kwargs) w = Return true) \/
    (status_code r = 400 /\
     result (add_group groupname kwargs) w = Raise CrowdGroupExists) \/
    (status_code r = 403 /\
     result (add_group groupname kwargs) w = Raise (CrowdAuthFailure None)) \/
    (status_code r <> 201 /\ status_code r <> 400 /\ status_code r <> 403 /\
     result (add_group groupname kwargs) w
     = Raise (CrowdError ("status code " ++ format_d (status_code r)))).
Proof.
  intros Hall.
  destruct (add_group_fill_accepts kwargs (group_template groupname) eq_refl Hall)
    as [data [Hrun _]].
  exists data. unfold result, add_group, add_group_request. run_method.
  fold (group_template groupname). rewrite Hrun.
  set (r := transport _). cbv zeta.
  by_status; cbn [fst]; pick.
Qed.

(** X14. [add_user_to_group] maps the status of the response: 201 gives
    true, 400 raises [CrowdNoSuchUser], 404 raises [CrowdNoSuchGroup], 409
    raises [CrowdUserExists], and every other status raises [CrowdError]
    with the text "received server response" and the status in decimal. *)
Theorem add_user_to_group_outcomes (username groupname : string) (w : World) :
  let r := transport (add_user_to_group_request username groupname w) in
  let res := result (add_user_to_group username groupname) w in
  (status_code r = 201 /\ res = Return true) \/
  (status_code r = 400 /\ res = Raise CrowdNoSuchUser) \/
  (status_code r = 404 /\ res = Raise CrowdNoSuchGroup) \/
  (status_code r = 409 /\ res = Raise CrowdUserExists) \/
  (status_code r <> 201 /\ status_code r <> 400 /\ status_code r <> 404 /\
   status_code r <> 409 /\
   res = Raise (CrowdError
                  ("received server response " ++ format_d (status_code r)))).
Proof.
  unfold result, add_user_to_group, add_user_to_group_request. run_method.
  set (r := transport _). cbv zeta. by_status; cbn [fst]; pick.
Qed.

(** X15. [add_child_group_to_group] treats a response as
    [add_user_to_group] does, except for the status 409, which it has no
    case for: there it raises [CrowdError], where [add_user_to_group]
    raises [CrowdUserExists]. *)
Theorem add_child_group_like_add_user_to_group
    (parent child username groupname : string) (w w' : World) :
  transport (add_child_group_to_group_request parent child w)
  = transport (add_user_to_group_request username groupname w') ->
  let r := transport (add_child_group_to_group_request parent child w) in
  let res := result (add_child_group_to_group parent child) w in
  let res' := result (add_user_to_group username groupname) w' in
  (status_code r <> 409 /\ res = res') \/
  (status_code r = 409 /\
   res = Raise (CrowdError "received server response 409") /\
   res' = Raise CrowdUserExists).
Proof.
  unfold result, add_child_group_to_group, add_user_to_group,
    add_child_group_to_group_request, add_user_to_group_request.
  run_method. intros Hr. rewrite <- Hr. set (r := transport _). cbv zeta.
  destruct (Z.eqb_spec (status_code r) 409) as [H409 | H409].
  - right. rewrite H409. repeat split.
  - left. split; [exact H409 | ].
    by_status; cbn [fst]; solve [reflexivity | exfalso; lia].
Qed.

End Statuses.

(** X12 at a call the server answers with 403. *)
Lemma add_user_outcomes_witness :
  let E := Examples.fixed (Examples.status 403) in
  let kwargs := [("email", JStr "bob@example.com"); ("password", JStr "pw")] in
  let w := Examples.fresh E in
  result (add_user "bob" kwargs) w
  = Raise (CrowdAuthDenied "application is not allowed to create a new user").
Proof.
  cbv zeta.
  assert (Hall : forall k v,
             In (k, v) [("email", JStr "bob@example.com"); ("password", JStr "pw")] ->
             names_payload_field k = true).
  { intros k v [[= <- <-] | [[= <- <-] | []]]; reflexivity. }
  destruct (@add_user_outcomes (Examples.fixed (Examples.status 403)) "bob"
              [("email", JStr "bob@example.com"); ("password", JStr "pw")]
              (Examples.fresh (Examples.fixed (Examples.status 403)))
              eq_refl eq_refl Hall)
    as [data [[H _] | [[H _] | [[_ H] | [_ [_ [H _]]]]]]];
    [ discriminate H | discriminate H | exact H | exfalso; apply H; reflexivity ].
Defined.

(** X13 at a call the server answers with 500. *)
Lemma add_group_outcomes_witness :
  let E := Examples.fixed (Examples.status 500) in
  let w := Examples.fresh E in
  result (add_group "admins" []) w = Raise (CrowdError "status code 500").
Proof.
  cbv zeta.
  destruct (@add_group_outcomes (Examples.fixed (Examples.status 500)) "admins" []
              (Examples.fresh (Examples.fixed (Examples.status 500)))
              (Forall_nil _))
    as [data [[H _] | [[H _] | [[H _] | [_ [_ [_ H]]]]]]];
    [ discriminate H | discriminate H | discriminate H | exact H ].
Defined.

(** X15 at a server that answers 409 to both. *)
Lemma add_child_group_like_add_user_to_group_witness :
  let E := Examples.fixed (Examples.status 409) in
  let w := Examples.fresh E in
  result (add_child_group_to_group "staff" "admins") w
  = Raise (CrowdError "received server response 409") /\
  result (add_user_to_group "bob" "admins") w = Raise CrowdUserExists.
Proof.
  cbv zeta.
  destruct (@add_child_group_like_add_user_to_group
              (Examples.fixed (Examples.status 409))
              "staff" "admins" "bob" "admins"
              (Examples.fresh (Examples.fixed (Examples.status 409)))
              (Examples.fresh (Examples.fixed (Examples.status 409)))
              eq_refl)
    as [[H _] | [_ H]]; [exfalso; apply H; reflexivity | exact H].
Defined.

(** ** Listings of names *)

Section Names.

Context `{E : Env}.

Lemma collect_names_named (gs names : list json) :
  Forall2 named gs names -> collect_names gs = Return names.
Proof.
  induction 1 as [| g n gs names [fields [-> Hname]] _ IH]; [reflexivity | ].
  cbn [collect_names subscript]. unfold Dict.getitem. rewrite Hname.
  cbn [obind]. rewrite IH. reflexivity.
Qed.

(** The comprehension returns one name per entry, in order, and only when
    every entry carries a name. *)
Lemma collect_names_returns (gs : list json) :
  forall names, collect_names gs = Return names -> Forall2 named gs names.
Proof.
  induction gs as [| g gs IH]; intros names.
  - intros [= <-]. constructor.
  - cbn [collect_names]. destruct (subscript g "name") as [n |] eqn:Hn;
      cbn [obind]; [ | discriminate].
    destruct (collect_names gs) as [ns |] eqn:Hns; cbn [obind]; [ | discriminate].
    intros [= <-]. constructor; [ | apply IH; reflexivity].
    destruct g; try discriminate Hn. cbn [subscript] in Hn.
    unfold Dict.getitem in Hn. destruct (Dict.get o "name") eqn:Hget;
      [ | discriminate Hn].
    injection Hn as <-. exists o. split; [reflexivity | exact Hget].
Qed.

(** What the comprehension raises comes from a subscript. *)
Lemma collect_names_raises (gs : list json) (e : exn) :
  collect_names gs = Raise e -> e = KeyError "name" \/ e = TypeError.
Proof.
  induction gs as [| g gs IH]; [discriminate | ].
  cbn [collect_names]. destruct (subscript g "name") as [n |] eqn:Hn; cbn [obind].
  - destruct (collect_names gs) as [ns |]; cbn [obind]; [discriminate | ].
    intros [= <-]. apply IH. reflexivity.
  - intros [= <-]. destruct g; cbn [subscript] in Hn;
      try (injection Hn as <-; right; reflexivity).
    unfold Dict.getitem in Hn. destruct (Dict.get o "name"); [discriminate | ].
    injection Hn as <-. left. reflexivity.
Qed.

Lemma names_under_raises (key : string) (r : Response) (e : exn) :
  names_under key r = Raise e ->
  e = ValueError "No JSON object could be decoded" \/
  e = KeyError key \/ e = KeyError "name" \/ e = TypeError.
Proof.
  unfold names_under, response_json.
  destruct (body_json r) as [j |]; cbn [obind];
    [ | intros [= <-]; left; reflexivity].
  destruct (subscript j key) as [listing |] eqn:Hsub; cbn [obind].
  - destruct (iterate listing) as [gs |] eqn:Hiter; cbn [obind].
    + intros H. destruct (collect_names_raises gs e H) as [-> | ->]; tauto.
    + intros [= <-]. destruct listing; try discriminate Hiter;
        cbn [iterate] in Hiter; injection Hiter as <-; tauto.
  - intros [= <-]. destruct j; cbn [subscript] in Hsub;
      try (injection Hsub as <-; tauto).
    unfold Dict.getitem in Hsub. destruct (Dict.get o key); [discriminate | ].
    injection Hsub as <-. tauto.
Qed.

Lemma names_under_listing (key : string) (r : Response) (o : dict)
    (gs names : list json) :
  body_json r = Some (JObj o) ->
  Dict.get o key = Some (JArr gs) ->
  Forall2 named gs names ->
  names_under key r = Return names.
Proof.
  intros Hbody Hkey Hnamed. unfold names_under, response_json.
  rewrite Hbody. cbn [obind subscript]. unfold Dict.getitem. rewrite Hkey.
  cbn [obind iterate]. apply collect_names_named. exact Hnamed.
Qed.

(** X16. On a 200 whose body is a mapping with a list under 'groups',
    each entry a mapping with a 'name', [get_groups] and
    [get_nested_groups] return the names of the entries, one per entry and
    in the order of the list; an empty list gives an empty list, not
    [None]. *)
Theorem group_names_listed (nested : bool) (username : string) (w : World)
    (r : Response) (o : dict) (gs names : list json) :
  transport (if nested then get_nested_groups_request username w
             else get_groups_request username w) = r ->
  status_code r = 200 ->
  body_json r = Some (JObj o) ->
  Dict.get o "groups" = Some (JArr gs) ->
  Forall2 named gs names ->
  result (if nested then get_nested_groups username else get_groups username) w
  = Return (Some names) /\
  length names = length gs.
Proof.
  intros Hr H200 Hbody Hkey Hnamed.
  split; [ | symmetry; exact (Forall2_length Hnamed)].
  destruct nested; unfold result, get_nested_groups, get_groups; run_method;
    [ fold (get_nested_groups_request username w)
    | fold (get_groups_request username w) ];
    rewrite Hr, H200; cbn [Z.eqb Pos.eqb];
    rewrite (names_under_listing "groups" r o gs names Hbody Hkey Hnamed);
    reflexivity.
Qed.

(** X17. On a 200, [get_groups] and [get_nested_groups] return a list or
    raise what reading the body raises: [ValueError] from the decoder,
    [KeyError] for 'groups' or 'name', or [TypeError]; they raise no
    [CrowdError] for a body they cannot read. *)
Theorem group_names_body_errors (nested : bool) (username : string) (w : World) :
  status_code (transport (if nested then get_nested_groups_request username w
                          else get_groups_request username w)) = 200 ->
  let res := result (if nested then get_nested_groups username
                     else get_groups username) w in
  (exists names, res = Return (Some names)) \/
  res = Raise (ValueError "No JSON object could be decoded") \/
  res = Raise (KeyError "groups") \/
  res = Raise (KeyError "name") \/
  res = Raise TypeError.
Proof.
  intros H200. cbv zeta.
  destruct nested; unfold result, get_nested_groups, get_groups; run_method;
    [ fold (get_nested_groups_request username w)
    | fold (get_groups_request username w) ];
    rewrite H200; cbn [Z.eqb Pos.eqb];
    match goal with
    | |- context [names_under "groups" ?resp] =>
        destruct (names_under "groups" resp) as [names | e] eqn:Hn
    end; cbn [fst];
    try (left; eexists; reflexivity);
    destruct (names_under_raises _ _ _ Hn) as [-> | [-> | [-> | ->]]]; tauto.
Qed.

(** X18. [get_nested_group_users] answers every error status (400 to
    599) with [None]; on any other status it reads the names under
    'users'.  It raises no [CrowdError] on any response. *)
Theorem nested_group_users_outcomes (groupname : string) (w : World) :
  let r := transport (get_nested_group_users_request groupname w) in
  let res := result (get_nested_group_users groupname) w in
  ((error_status (status_code r) /\ res = Return None) \/
   (~ error_status (status_code r) /\ res = omap Some (names_under "users" r))) /\
  forall message, res <> Raise (CrowdError message).
Proof.
  cbv zeta. unfold result, get_nested_group_users, get_nested_group_users_request.
  run_method. set (r := transport _).
  destruct (ok r) eqn:Hok; cbn [negb].
  - apply ok_true_iff in Hok. unfold omap.
    destruct (names_under "users" r) as [names | e] eqn:Hn; cbn [fst obind].
    + split; [right; split; [exact Hok | reflexivity] | discriminate].
    + split; [right; split; [exact Hok | reflexivity] | ].
      intros message [= ->].
      destruct (names_under_raises _ _ _ Hn) as [H | [H | [H | H]]];
        discriminate H.
  - apply ok_false_iff in Hok.
    split; [left; split; [exact Hok | reflexivity] | discriminate].
Qed.

(** X19. [user_exists] and [group_exists] never raise and never return
    false: they return [None] on an error status (400 to 599) and true on
    any other. *)
Theorem exists_checks_outcomes (name : string) (w : World) :
  let user := transport (user_exists_request name w) in
  let group := transport (group_exists_request name w) in
  ((error_status (status_code user) /\
    result (user_exists name) w = Return None) \/
   (~ error_status (status_code user) /\
    result (user_exists name) w = Return (Some true))) /\
  ((error_status (status_code group) /\
    result (group_exists name) w = Return None) \/
   (~ error_status (status_code group) /\
    result (group_exists name) w = Return (Some true))).
Proof.
  cbv zeta. rewrite user_exists_result, group_exists_result. split.
  - destruct (ok (transport (user_exists_request name w))) eqn:Hok.
    + right. split; [apply ok_true_iff; exact Hok | reflexivity].
    + left. split; [apply ok_false_iff; exact Hok | reflexivity].
  - destruct (ok (transport (group_exists_request name w))) eqn:Hok.
    + right. split; [apply ok_true_iff; exact Hok | reflexivity].
    + left. split; [apply ok_false_iff; exact Hok | reflexivity].
Qed.

End Names.

(** X16 at a listing of two groups. *)
Lemma group_names_listed_witness :
  let E := Examples.fixed (Examples.with_body 200 admins_and_staff) in
  let w := Examples.fresh E in
  result (get_groups "bob") w = Return (Some [JStr "admins"; JStr "staff"]) /\
  length [JStr "admins"; JStr "staff"] = 2%nat.
Proof.
  cbv zeta.
  apply (@group_names_listed
           (Examples.fixed (Examples.with_body 200 admins_and_staff))
           false "bob" _ (Examples.with_body 200 admins_and_staff)
           [("expand", JStr "group");
            ("groups", JArr [JObj [("link", JNull); ("name", JStr "admins")];
                             JObj [("name", JStr "staff")]])]
           [JObj [("link", JNull); ("name", JStr "admins")];
            JObj [("name", JStr "staff")]]);
    try reflexivity.
  repeat constructor; eexists; split; reflexivity.
Defined.

(** X17 at a 200 whose body has no 'groups'. *)
Lemma group_names_body_errors_witness :
  let E := Examples.fixed (Examples.with_body 200 Examples.bob) in
  let w := Examples.fresh E in
  result (get_nested_groups "bob") w = Raise (KeyError "groups").
Proof.
  cbv zeta.
  destruct (@group_names_body_errors
              (Examples.fixed (Examples.with_body 200 Examples.bob))
              true "bob"
              (Examples.fresh (Examples.fixed (Examples.with_body 200 Examples.bob)))
              eq_refl)
    as [[names H] | [H | [H | [H | H]]]];
    first [exact H | discriminate H].
Defined.

Example get_groups_no_groups :
  fst (Examples.run (Examples.with_body 200 (JObj [("groups", JArr [])]))
         (fun E => get_groups "bob"))
  = Return (Some []).
Proof. reflexivity. Qed.

Example get_nested_group_users_500 :
  fst (Examples.run (Examples.status 500)
         (fun E => get_nested_group_users "admins"))
  = Return None.
Proof. reflexivity. Qed.

(** ** Removing a user from a group, further *)

Section NotFound.

Context `{E : Env}.

(** A 404 always ends in an exception, chosen by the body. *)
Lemma remove_user_from_group_404 (username groupname : string) (w : World) :
  status_code (transport (remove_user_from_group_request username groupname w))
  = 404 ->
  result (remove_user_from_group username groupname) w
  = Raise (not_found_error
             (body_json
                (transport (remove_user_from_group_request username groupname w)))).
Proof.
  intros H404. unfold result, remove_user_from_group. run_method.
  fold (remove_user_from_group_request username groupname w).
  set (r := transport _) in *. rewrite H404. cbn [Z.eqb Pos.eqb].
  unfold response_json, not_found_error.
  destruct (body_json r) as [j |]; [ | reflexivity].
  destruct j; try reflexivity.
  cbn [subscript_message obind fst]. unfold Dict.getitem.
  destruct (Dict.get o "message") as [v |]; [ | reflexivity].
  destruct v; try reflexivity.
  cbn [obind value_lower fst].
  destruct (PyStr.startswith (PyStr.lower s) "group"); [reflexivity | ].
  destruct (PyStr.startswith (PyStr.lower s) "user"); reflexivity.
Qed.

(** X20. On a 404 [remove_user_from_group] always raises, and the body
    decides what: a body that is not JSON raises the decoder's
    [ValueError], one that is not a mapping [TypeError], a mapping without
    'message' [KeyError], a 'message' that is not a text
    [AttributeError]; only a text message leads to [CrowdNoSuchGroup],
    [CrowdNoSuchUser] or [CrowdError]. *)
Theorem remove_user_from_group_404_raises (username groupname : string)
    (w : World) (r : Response) :
  transport (remove_user_from_group_request username groupname w) = r ->
  status_code r = 404 ->
  result (remove_user_from_group username groupname) w
  = Raise (not_found_error (body_json r)) /\
  (body_json r = None ->
   not_found_error (body_json r) = ValueError "No JSON object could be decoded") /\
  (forall j, body_json r = Some j -> (forall o, j <> JObj o) ->
             not_found_error (body_json r) = TypeError) /\
  (forall o, body_json r = Some (JObj o) -> Dict.get o "message" = None ->
             not_found_error (body_json r) = KeyError "message") /\
  (forall o v, body_json r = Some (JObj o) -> Dict.get o "message" = Some v ->
               (forall m, v <> JStr m) ->
               not_found_error (body_json r) = AttributeError).
Proof.
  intros Hr H404. split; [ | split; [ | split; [ | split]]].
  - rewrite <- Hr in *. apply remove_user_from_group_404. exact H404.
  - intros ->. reflexivity.
  - intros j -> Hj. destruct j; try reflexivity. exfalso. exact (Hj o eq_refl).
  - intros o -> Hget. cbn [not_found_error]. rewrite Hget. reflexivity.
  - intros o v -> Hget Hv. cbn [not_found_error]. rewrite Hget.
    destruct v; try reflexivity. exfalso. exact (Hv s eq_refl).
Qed.

(** X21. The message of a 404 is matched without regard to the case of
    its letters: two responses whose messages differ only in case make
    [remove_user_from_group] raise the same exception. *)
Theorem remove_user_from_group_ignores_case
    (username groupname username' groupname' : string) (w w' : World)
    (r r' : Response) (o o' : dict) (m m' : string) :
  transport (remove_user_from_group_request username groupname w) = r ->
  transport (remove_user_from_group_request username' groupname' w') = r' ->
  status_code r = 404 -> status_code r' = 404 ->
  body_json r = Some (JObj o) -> body_json r' = Some (JObj o') ->
  Dict.get o "message" = Some (JStr m) ->
  Dict.get o' "message" = Some (JStr m') ->
  PyStr.lower m = PyStr.lower m' ->
  result (remove_user_from_group username groupname) w
  = result (remove_user_from_group username' groupname') w'.
Proof.
  intros Hr Hr' H404 H404' Hbody Hbody' Hm Hm' Hlower.
  rewrite <- Hr in H404, Hbody. rewrite <- Hr' in H404', Hbody'.
  rewrite (remove_user_from_group_404 _ _ _ H404),
    (remove_user_from_group_404 _ _ _ H404').
  rewrite Hbody, Hbody'. cbn [not_found_error]. rewrite Hm, Hm', Hlower.
  reflexivity.
Qed.

End NotFound.

(** X20 at a 404 whose body is not JSON. *)
Lemma remove_user_from_group_404_raises_witness :
  let E := Examples.fixed (Examples.status 404) in
  let w := Examples.fresh E in
  result (remove_user_from_group "bob" "admins") w
  = Raise (ValueError "No JSON object could be decoded").
Proof.
  cbv zeta.
  exact (proj1 (@remove_user_from_group_404_raises
                  (Examples.fixed (Examples.status 404)) "bob" "admins"
                  (Examples.fresh (Examples.fixed (Examples.status 404)))
                  (Examples.status 404) eq_refl eq_refl)).
Defined.

(** X21 at "GROUP ADMINS NOT FOUND" and "Group admins not found". *)
Lemma remove_user_from_group_ignores_case_witness :
  let E := shouting_for_alice in
  let w := Examples.fresh E in
  result (remove_user_from_group "alice" "admins") w
  = result (remove_user_from_group "bob" "admins") w.
Proof.
  cbv zeta.
  exact (@remove_user_from_group_ignores_case shouting_for_alice
           "alice" "admins" "bob" "admins"
           (Examples.fresh shouting_for_alice) (Examples.fresh shouting_for_alice)
           (Examples.message 404 "GROUP ADMINS NOT FOUND")
           (Examples.message 404 "Group admins not found")
           [("message", JStr "GROUP ADMINS NOT FOUND")]
           [("message", JStr "Group admins not found")]
           "GROUP ADMINS NOT FOUND" "Group admins not found"
           eq_refl eq_refl eq_refl eq_refl eq_refl eq_refl eq_refl eq_refl
           eq_refl).
Defined.

(** ** The payload of [add_user], further *)

Section PayloadShape.

Context `{E : Env}.

(** Turning underscores into dashes gives a text without dashes only from
    that same text. *)
Lemma replace_to_plain (k : string) :
  forall f : string,
    PyStr.mem "-" f = false -> PyStr.replace "_" "-" k = f -> k = f.
Proof.
  induction k as [| c k IH]; intros f Hf Hk; [exact Hk | ].
  cbn [PyStr.replace] in Hk. destruct f as [| d f]; [discriminate Hk | ].
  injection Hk as Hd Hk'. cbn [PyStr.mem] in Hf.
  apply orb_false_iff in Hf. destruct Hf as [Hdash Hf].
  destruct (Ascii.eqb_spec c "_") as [-> | Hc].
  - subst d. discriminate Hdash.
  - subst d. rewrite (IH f Hf Hk'). reflexivity.
Qed.

Lemma replace_of_plain (f : string) :
  PyStr.mem "_" f = false -> PyStr.replace "_" "-" f = f.
Proof.
  induction f as [| c f IH]; [reflexivity | ].
  cbn [PyStr.mem PyStr.replace]. intros Hf.
  apply orb_false_iff in Hf. destruct Hf as [Hc Hf].
  rewrite Ascii.eqb_sym in Hc. rewrite Hc, (IH Hf). reflexivity.
Qed.

(** For a field whose name has neither dash nor underscore, the keyword
    is the field itself. *)
Lemma last_given_plain (f : string) (items : list (string * json)) :
  PyStr.mem "-" f = false -> PyStr.mem "_" f = false ->
  last_given f items = last_value f items.
Proof.
  intros Hdash Hunder.
  induction items as [| [k v] items IH]; [reflexivity | ].
  cbn [last_given last_value]. rewrite IH.
  destruct (last_value f items); [reflexivity | ].
  destruct (String.eqb_spec k f) as [-> | Hne].
  - rewrite (replace_of_plain f Hunder), String.eqb_refl. reflexivity.
  - destruct (String.eqb_spec (PyStr.replace "_" "-" k) f) as [Heq | _];
      [ | reflexivity].
    exfalso. apply Hne. exact (replace_to_plain k f Hdash Heq).
Qed.

Lemma delitem_keys_NoDup (d : dict) (p : string) :
  NoDup (map fst d) -> NoDup (map fst (Dict.delitem d p)).
Proof.
  induction d as [| [k v] d IH]; cbn [map fst Dict.delitem]; [tauto | ].
  intros Hnd. inversion Hnd as [| k' ks Hnotin Hnd']; subst.
  destruct (String.eqb p k); [exact (IH Hnd') | ].
  cbn [map fst]. constructor; [ | exact (IH Hnd')].
  intros Hin. apply Hnotin. apply in_map_iff in Hin.
  destruct Hin as [[k' v'] [Hk' Hin]]. cbn [fst] in Hk'. subst k'.
  apply In_delitem in Hin. apply in_map_iff. exists (k, v'). tauto.
Qed.

Lemma get_delitem_other (d : dict) (p f : string) :
  f <> p -> Dict.get (Dict.delitem d p) f = Dict.get d f.
Proof.
  intros Hne. induction d as [| [k v] d IH]; [reflexivity | ].
  cbn [Dict.delitem Dict.get].
  destruct (String.eqb_spec p k) as [<- | Hpk].
  - apply String.eqb_neq in Hne. rewrite Hne. exact IH.
  - cbn [Dict.get]. rewrite IH. reflexivity.
Qed.

Lemma get_delitem_same (d : dict) (p : string) :
  Dict.get (Dict.delitem d p) p = None.
Proof.
  induction d as [| [k v] d IH]; [reflexivity | ].
  cbn [Dict.delitem]. destruct (String.eqb p k) eqn:Hpk; [exact IH | ].
  cbn [Dict.get]. rewrite Hpk. exact IH.
Qed.

(** X22. When the local checks of [add_user] pass, the payload of the
    request has exactly the keys name, first-name, last-name,
    display-name, email, password and active, in this order; its email is
    the one given, its password is the one given wrapped as a mapping with
    the single key 'value', and its name is the username unless the call
    has a keyword 'name'. *)
Theorem add_user_payload_shape (username : string) (kwargs : dict) (w : World)
    (email password : json) :
  NoDup (map fst kwargs) ->
  Dict.get kwargs "email" = Some email ->
  Dict.get kwargs "password" = Some password ->
  (forall k v, In (k, v) kwargs -> names_payload_field k = true) ->
  exists data : dict,
    sent (after (add_user username kwargs) w)
    = (sent w ++ [add_user_request data w])%list /\
    map fst data = payload_keys /\
    Dict.get data "email" = Some email /\
    Dict.get data "password" = Some (JObj [("value", password)]) /\
    (Dict.get kwargs "name" = None -> Dict.get data "name" = Some (JStr username)).
Proof.
  intros Hnd He Hp Hall.
  assert (Hpayload : add_user_payload username kwargs
                     = Return (payload_template username email password)).
  { unfold add_user_payload, Dict.getitem. rewrite He, Hp. reflexivity. }
  destruct (add_user_fill_accepts (Dict.delitem kwargs "password")
              (payload_template username email password) eq_refl)
    as [data [Hrun [Hkeys Hget]]].
  { intros k v Hin. apply In_delitem in Hin. apply (Hall k v). tauto. }
  pose proof (delitem_keys_NoDup kwargs "password" Hnd) as Hnd'.
  exists data. split; [ | split; [exact Hkeys | split; [ | split]]].
  - rewrite (add_user_sends username kwargs _ data w Hpayload Hrun). reflexivity.
  - rewrite Hget, last_given_plain by reflexivity.
    rewrite (last_value_get _ _ Hnd'), get_delitem_other by discriminate.
    rewrite He. reflexivity.
  - rewrite Hget, last_given_plain by reflexivity.
    rewrite (last_value_get _ _ Hnd'), get_delitem_same. reflexivity.
  - intros Hname. rewrite Hget, last_given_plain by reflexivity.
    rewrite (last_value_get _ _ Hnd'), get_delitem_other by discriminate.
    rewrite Hname. reflexivity.
Qed.

End PayloadShape.

(** X22 at a call with a display name. *)
Lemma add_user_payload_shape_witness :
  let E := Examples.fixed (Examples.status 201) in
  let kwargs := [("email", JStr "bob@example.com"); ("password", JStr "pw");
                 ("display_name", JStr "Bob")] in
  let w := Examples.fresh E in
  exists data : dict,
    sent (after (add_user "bob" kwargs) w)
    = (sent w ++ [add_user_request data w])%list /\
    map fst data = payload_keys /\
    Dict.get data "email" = Some (JStr "bob@example.com") /\
    Dict.get data "password" = Some (JObj [("value", JStr "pw")]) /\
    (Dict.get kwargs "name" = None -> Dict.get data "name" = Some (JStr "bob")).
Proof.
  cbv zeta.
  apply (@add_user_payload_shape (Examples.fixed (Examples.status 201)));
    try reflexivity.
  - repeat constructor; cbn; intuition discriminate.
  - intros k v [[= <- <-] | [[= <- <-] | [[= <- <-] | []]]]; reflexivity.
Defined.

(** ** The messages of [CrowdError] *)

Section Messages.

Context `{E : Env}.

(** The decimal form of an integer tells the integer. *)
Lemma format_d_inj (a b : Z) : format_d a = format_d b -> a = b.
Proof.
  unfold format_d. intros H.
  apply (f_equal DecimalString.NilEmpty.int_of_string) in H.
  rewrite !DecimalString.NilEmpty.isi in H. injection H as H.
  apply (f_equal Z.of_int) in H. rewrite !DecimalZ.of_to in H. exact H.
Qed.

Lemma append_inj (a x y : string) : a ++ x = a ++ y -> x = y.
Proof.
  induction a as [| c a IH]; cbn [append]; [tauto | ].
  intros [= H]. exact (IH H).
Qed.

Lemma add_user_to_group_crowd_error (username groupname : string) (w : World)
    (m : string) :
  result (add_user_to_group username groupname) w = Raise (CrowdError m) ->
  m = "received server response "
      ++ format_d (status_code
                     (transport (add_user_to_group_request username groupname w))).
Proof.
  unfold result, add_user_to_group, add_user_to_group_request. run_method.
  set (r := transport _). by_status; cbn [fst]; try discriminate.
  intros [= <-]. reflexivity.
Qed.

Lemma add_child_group_to_group_crowd_error (parent child : string) (w : World)
    (m : string) :
  result (add_child_group_to_group parent child) w = Raise (CrowdError m) ->
  m = "received server response "
      ++ format_d (status_code
                     (transport (add_child_group_to_group_request parent child w))).
Proof.
  unfold result, add_child_group_to_group, add_child_group_to_group_request.
  run_method.
  set (r := transport _). by_status; cbn [fst]; try discriminate.
  intros [= <-]. reflexivity.
Qed.

(** X23. The [CrowdError] that [add_user_to_group] and
    [add_child_group_to_group] raise for a status they have no case for
    tells the status: two calls that raise it with the same message met
    the same status. *)
Theorem membership_error_tells_status (child : bool)
    (a b a' b' : string) (w w' : World) (m : string) :
  result (if child then add_child_group_to_group a b
          else add_user_to_group a b) w = Raise (CrowdError m) ->
  result (if child then add_child_group_to_group a' b'
          else add_user_to_group a' b') w' = Raise (CrowdError m) ->
  status_code (transport (if child then add_child_group_to_group_request a b w
                          else add_user_to_group_request a b w))
  = status_code (transport (if child
                            then add_child_group_to_group_request a' b' w'
                            else add_user_to_group_request a' b' w')).
Proof.
  intros H H'. destruct child.
  - apply add_child_group_to_group_crowd_error in H, H'.
    rewrite H in H'. apply append_inj in H'. apply format_d_inj. exact H'.
  - apply add_user_to_group_crowd_error in H, H'.
    rewrite H in H'. apply append_inj in H'. apply format_d_inj. exact H'.
Qed.

End Messages.

(** X23 at two calls that both meet a 500. *)
Lemma membership_error_tells_status_witness :
  let E := Examples.fixed (Examples.status 500) in
  let w := Examples.fresh E in
  status_code (transport (add_user_to_group_request "bob" "admins" w))
  = status_code (transport (add_user_to_group_request "alice" "staff" w)).
Proof.
  cbv zeta.
  exact (@membership_error_tells_status (Examples.fixed (Examples.status 500))
           false "bob" "admins" "alice" "staff"
           (Examples.fresh (Examples.fixed (Examples.status 500)))
           (Examples.fresh (Examples.fixed (Examples.status 500)))
           "received server response 500" eq_refl eq_refl).
Defined.

Example format_d_500 : format_d 500 = "500".
Proof. reflexivity. Qed.

Example format_d_0 : format_d 0 = "0".
Proof. reflexivity. Qed.

Example format_d_negative : format_d (-7) = "-7".
Proof. reflexivity. Qed.

Section CrowdErrorMessage.

Context `{E : Env}.

Lemma mkCrowdError_has_message (message : option string) :
  has_message (mkCrowdError message).
Proof.
  intros m. destruct message as [[| c s] |]; cbn [mkCrowdError];
    intros [= <-]; discriminate.
Qed.

Lemma names_under_has_message (key : string) (r : Response) (e : exn) :
  names_under key r = Raise e -> has_message e.
Proof.
  intros H m ->.
  destruct (names_under_raises _ _ _ H) as [H' | [H' | [H' | H']]]; discriminate H'.
Qed.

Lemma add_user_payload_has_message (username : string) (kwargs : dict) (e : exn) :
  add_user_payload username kwargs = Raise e -> has_message e.
Proof.
  unfold add_user_payload, exception_message, Dict.getitem.
  destruct (Dict.get kwargs "email"); cbn [obind];
    [ destruct (Dict.get kwargs "password"); cbn [obind] | ];
    intros [= <-] m; discriminate.
Qed.

Lemma add_user_fill_has_message (items : list (string * json)) (e : exn) :
  forall data, add_user_fill items data = Raise e -> has_message e.
Proof.
  induction items as [| [k v] items IH]; intros data; cbn [add_user_fill];
    [discriminate | ].
  destruct (negb (Dict.contains data (PyStr.replace "_" "-" k))).
  - intros [= <-] m. discriminate.
  - apply IH.
Qed.

Lemma add_group_fill_has_message (items : list (string * json)) (e : exn) :
  forall data, add_group_fill items data = Raise e -> has_message e.
Proof.
  induction items as [| [k v] items IH]; intros data; cbn [add_group_fill];
    [discriminate | ].
  destruct (negb (Dict.contains data k)).
  - intros [= <-] m. discriminate.
  - apply IH.
Qed.

End CrowdErrorMessage.

(** Splits the run of a method, held in [H], down to its branches. *)
Ltac branches_in H :=
  repeat match type of H with
    | context [if ?b then _ else _] => destruct b
    | context [match ?o with Some _ => _ | None => _ end] =>
        let Ho := fresh "Ho" in destruct o eqn:Ho
    | context [match ?j with
               | JNull => _ | JBool _ => _ | JNum _ => _
               | JStr _ => _ | JArr _ => _ | JObj _ => _
               end] => destruct j
    | context [match ?o with Return _ => _ | Raise _ => _ end] =>
        let Ho := fresh "Ho" in destruct o eqn:Ho
    end.

(** Closes a branch that raised a fixed exception or one from a source
    with a lemma. *)
Ltac message_from H :=
  cbn [fst] in H; try discriminate H; injection H as <-;
  first
    [ apply mkCrowdError_has_message
    | let Heq := fresh "Heq" in
      intros ? Heq;
      first [ discriminate Heq
            | injection Heq as <-; cbn [append]; discriminate ]
    | eapply names_under_has_message; eassumption
    | eapply add_user_payload_has_message; eassumption
    | eapply add_user_fill_has_message; eassumption
    | eapply add_group_fill_has_message; eassumption ].

Section CrowdErrorRaised.

Context `{E : Env}.

(** X24. Whatever call of the twenty-one operations raises a [CrowdError],
    the error carries a text that is not empty: the one the method gives,
    or the default text "unexpected response from Crowd server" when it
    gives none. *)
Theorem crowd_error_has_message (c : call) (w : World) (m : string) :
  raised c w = Some (CrowdError m) -> m <> "".
Proof.
  intros Hraised.
  assert (Hall : forall e, raised c w = Some e -> has_message e);
    [ | exact (Hall _ Hraised m eq_refl)].
  clear Hraised m. intros e.
  destruct c; cbn [raised]; unfold raised_by;
    match goal with
    | |- context [result ?meth w] => destruct (result meth w) as [a | e'] eqn:H
    end;
    (intros [= <-] || discriminate);
    unfold result, auth_ping, auth_user, get_session, validate_session,
      terminate_session, add_user,
      remove_user, get_user, get_user_direct_group, get_child_group_direct,
      get_group_membership, get_group_users_direct, add_group, get_groups,
      get_nested_groups, get_nested_group_users, add_user_to_group,
      add_child_group_to_group, remove_user_from_group, user_exists,
      group_exists, response_json, subscript_message, subscript, value_lower,
      Dict.getitem, obind in H;
    revert H; run_method; intros H;
    branches_in H; message_from H.
Qed.

End CrowdErrorRaised.

Example add_group_error_message :
  raised (E := Examples.fixed (Examples.status 502)) (CallAddGroup "admins" [])
    (Examples.fresh (Examples.fixed (Examples.status 502)))
  = Some (CrowdError "status code 502").
Proof. reflexivity. Qed.

(** X24 at a lookup that meets a 500. *)
Lemma crowd_error_has_message_witness :
  let E := Examples.fixed (Examples.status 500) in
  raised (CallGetUser "bob") (Examples.fresh E)
  = Some (CrowdError "unexpected response from Crowd server") /\
  "unexpected response from Crowd server" <> "".
Proof.
  cbv zeta. split; [reflexivity | ].
  exact (@crowd_error_has_message (Examples.fixed (Examples.status 500))
           (CallGetUser "bob")
           (Examples.fresh (Examples.fixed (Examples.status 500)))
           "unexpected response from Crowd server" eq_refl).
Defined.

(** ** The membership dump *)

Section Dump.

Context `{E : Env}.

(** X25. [get_group_membership] sends its request with the headers
    already switched to XML and reads the raw content only: a 200 gives
    the tree [xmltodict.parse] builds from the content, or the parser's
    error; a 404 gives [None]; every other status raises [CrowdError]. *)
Theorem get_group_membership_outcomes (w : World) :
  let req := get_group_membership_request w in
  let r := transport req in
  let res := result get_group_membership w in
  sent (after get_group_membership w) = (sent w ++ [req])%list /\
  declares req "application/xml" /\
  ((status_code r = 200 /\
    res = match xmltodict_parse (content r) with
          | Some tree => Return (Some tree)
          | None => Raise ExpatError
          end) \/
   (status_code r = 404 /\ res = Return None) \/
   (status_code r <> 200 /\ status_code r <> 404 /\
    res = Raise (CrowdError "unexpected response from Crowd server"))).
Proof.
  cbv zeta. unfold result, after, get_group_membership,
    get_group_membership_request, switch_to_xml.
  run_method. cbn [session rest_url]. set (r := transport _).
  split; [ | split].
  - by_status; branches; reflexivity.
  - unfold declares, prepare. cbn [req_headers headers].
    apply (update_content_type_accept (headers (session (self w)))
             "application/xml").
  - by_status; [ | | ].
    + left. split; [assumption | ].
      destruct (xmltodict_parse (content r)); reflexivity.
    + right; left. split; [assumption | reflexivity].
    + right; right. repeat split; assumption.
Qed.

End Dump.

(** ** Authentication and session creation *)

Section Authentication.

Context `{E : Env}.

(** X26. [auth_user] returns what the body decodes to on 200, and
    [get_session] on 201; on 400 both read the 'message' of the decoded
    body and raise [CrowdAuthFailure] with it, or raise what reading the
    body raises; on every other status both raise [CrowdError].  A 200 is
    thus an error for [get_session], and a 201 for [auth_user]. *)
Theorem authentication_outcomes (username password remote : string) (w : World) :
  authentication_table (result (auth_user username password) w)
    (transport (auth_user_request username password w)) 200 /\
  authentication_table (result (get_session username password remote) w)
    (transport (get_session_request username password remote w)) 201.
Proof.
  unfold authentication_table, result, auth_user, get_session,
    auth_user_request, get_session_request.
  run_method.
  split;
    match goal with
    | |- context [status_code (transport ?q)] => set (r := transport q)
    end;
    by_status; unfold obind;
    destruct (response_json r) as [j | raised_e]; cbn [fst];
    try destruct (subscript j "message"); cbn [fst];
    pick.
Qed.

End Authentication.

Example auth_user_400 :
  fst (Examples.run (Examples.message 400 "Failed to authenticate principal")
         (fun E => auth_user "bob" "wrong"))
  = Raise (CrowdAuthFailure (Some (JStr "Failed to authenticate principal"))).
Proof. reflexivity. Qed.

Example get_session_200 :
  fst (Examples.run (Examples.with_body 200 Examples.bob)
         (fun E => get_session "bob" "pw" "127.0.0.1"))
  = Raise (CrowdError "unexpected response from Crowd server").
Proof. reflexivity. Qed.

Example get_session_201 :
  fst (Examples.run (Examples.with_body 201 Examples.bob)
         (fun E => get_session "bob" "pw" "127.0.0.1"))
  = Return Examples.bob.
Proof. reflexivity. Qed.
